(** * BbsBlsSignatureProof2020: selective-disclosure derivation and verification

    A shallow embedding of [src/BbsBlsSignatureProof2020.ts].

    - JSON-LD documents and proofs are JavaScript values; objects are finite
      maps from property names to values.
    - Strings are sequences of code units; every string operation the suite
      uses ([split], [startsWith], [replace], [substring], [join],
      [indexOf]) works code unit by code unit, so the alphabet is immaterial.
    - [async] functions are computations in an error monad: a rejected promise
      is [Err], a resolved one is [Ok].
    - The JSON-LD processor, the BBS+ primitive and the issuer suite
      [BbsBlsSignature2020] are collaborators of the suite: each is an
      interface (a class) the suite is parameterised by.  The purpose
      validator comes in with the options, the random numbers from an
      explicit entropy state. *)

From stdpp Require Import base gmap list strings pretty.
From Stdlib Require Import ZArith Lia Ascii String.
From Stdlib.Strings Require Import Byte.

Local Open Scope Z_scope.

(** ** JavaScript strings *)

Module JsString.

Definition SPACE : ascii := " "%char.
Definition LF : ascii := "010"%char.
Definition DOLLAR : ascii := "$"%char.

(** [strip_prefix p s] is [Some r] exactly when [s = p +:+ r]. *)
Fixpoint strip_prefix (p s : string) : option string :=
  match p, s with
  | EmptyString, _ => Some s
  | String a p', String b s' =>
      if Ascii.eqb a b then strip_prefix p' s' else None
  | String _ _, EmptyString => None
  end.

(** [s.startsWith(p)] *)
Definition startsWith (s p : string) : bool :=
  match strip_prefix p s with Some _ => true | None => false end.

(** [s.split(sep)] for a one-character separator; the result is never
    empty. *)
Fixpoint split (sep : ascii) (s : string) : list string :=
  match s with
  | EmptyString => [EmptyString]
  | String c r =>
      if Ascii.eqb c sep then EmptyString :: split sep r
      else match split sep r with
           | h :: t => String c h :: t
           | [] => [String c EmptyString]
           end
  end.

(** [l.join(sep)] *)
Definition join (sep : ascii) (l : list string) : string :=
  String.concat (String sep EmptyString) l.

(** First occurrence of [pat] in [s]: the text before it and the text
    after it. *)
Fixpoint find_sub (pat s : string) : option (string * string) :=
  match strip_prefix pat s with
  | Some after => Some (EmptyString, after)
  | None =>
      match s with
      | EmptyString => None
      | String c s' =>
          match find_sub pat s' with
          | Some (before, after) => Some (String c before, after)
          | None => None
          end
      end
  end.

(** GetSubstitution of ECMA-262 for a string pattern (no captures): [$$]
    is a dollar sign, [$&] the matched text, [$`] the text before the
    match, [$'] the text after it; every other character, and a [$]
    followed by anything else, stands for itself. *)
Fixpoint GetSubstitution (matched before after templ : string) : string :=
  match templ with
  | EmptyString => EmptyString
  | String c r =>
      if Ascii.eqb c DOLLAR then
        match r with
        | String d r' =>
            if Ascii.eqb d DOLLAR then
              String DOLLAR (GetSubstitution matched before after r')
            else if Ascii.eqb d "&"%char then
              matched +:+ GetSubstitution matched before after r'
            else if Ascii.eqb d "`"%char then
              before +:+ GetSubstitution matched before after r'
            else if Ascii.eqb d "'"%char then
              after +:+ GetSubstitution matched before after r'
            else String c (GetSubstitution matched before after r)
        | EmptyString => String c EmptyString
        end
      else String c (GetSubstitution matched before after r)
  end.

(** [s.replace(pat, repl)] with a string pattern: only the first
    occurrence is replaced. *)
Definition replace (s pat repl : string) : string :=
  match find_sub pat s with
  | None => s
  | Some (before, after) =>
      before +:+ GetSubstitution pat before after repl +:+ after
  end.

Fixpoint drop (n : nat) (s : string) : string :=
  match n, s with
  | O, _ => s
  | S n', String _ r => drop n' r
  | S _, EmptyString => EmptyString
  end.

Fixpoint take (n : nat) (s : string) : string :=
  match n, s with
  | O, _ => EmptyString
  | S n', String c r => String c (take n' r)
  | S _, EmptyString => EmptyString
  end.

(** [s.substring(indexStart, indexEnd)]: both indices are clamped to
    [0, length] and swapped when out of order. *)
Definition substring (s : string) (indexStart indexEnd : Z) : string :=
  let len := Z.of_nat (String.length s) in
  let finalStart := Z.min (Z.max indexStart 0) len in
  let finalEnd := Z.min (Z.max indexEnd 0) len in
  let from := Z.min finalStart finalEnd in
  let to := Z.max finalStart finalEnd in
  take (Z.to_nat (to - from)) (drop (Z.to_nat from) s).

(** [l.indexOf(key)] on an array of strings (strict equality). *)
Fixpoint indexOf_from (i : Z) (l : list string) (key : string) : Z :=
  match l with
  | [] => -1
  | x :: r => if String.eqb x key then i else indexOf_from (i + 1) r key
  end.

Definition indexOf (l : list string) (key : string) : Z :=
  indexOf_from 0 l key.

(** A string without any dollar sign. *)
Fixpoint no_dollar (s : string) : bool :=
  match s with
  | EmptyString => true
  | String c r => negb (Ascii.eqb c DOLLAR) && no_dollar r
  end.

(** A string without any space. *)
Fixpoint no_space (s : string) : bool :=
  match s with
  | EmptyString => true
  | String c r => negb (Ascii.eqb c SPACE) && no_space r
  end.

(** A string that is empty or begins with a space. *)
Definition at_boundary (s : string) : bool :=
  match s with
  | EmptyString => true
  | String c _ => Ascii.eqb c SPACE
  end.

End JsString.

(** ** The blank-node stabilizer (lines 87-98 and 205-217) *)

(** [element.split(" ")[0]] *)
Definition nodeIdentifier (element : string) : string :=
  match JsString.split JsString.SPACE element with
  | h :: _ => h
  | [] => EmptyString
  end.

(** What follows the node identifier in a statement. *)
Definition afterNodeIdentifier (element : string) : string :=
  JsString.drop (String.length (nodeIdentifier element)) element.

(** Derive path: [_:c14n0 ...] becomes [<urn:bnid:_:c14n0> ...]. *)
Definition stabilize (element : string) : string :=
  let nodeIdentifier := nodeIdentifier element in
  if JsString.startsWith nodeIdentifier "_:c14n" then
    JsString.replace element nodeIdentifier
      ("<urn:bnid:" +:+ nodeIdentifier +:+ ">")
  else element.

(** Verify path: [<urn:bnid:_:c14n0> ...] becomes [_:c14n0 ...]. *)
Definition unstabilize (element : string) : string :=
  let nodeIdentifier := nodeIdentifier element in
  if JsString.startsWith nodeIdentifier "<urn:bnid:_:c14n" then
    JsString.replace element nodeIdentifier
      (JsString.substring nodeIdentifier
         (Z.of_nat (String.length "<urn:bnid:"))
         (Z.of_nat (String.length nodeIdentifier) - 1))
  else element.

Definition transformedInputDocumentStatements
    (documentStatements : list string) : list string :=
  map stabilize documentStatements.

Definition transformedDocumentStatements
    (documentStatements : list string) : list string :=
  map unstabilize documentStatements.

(** A statement on which the two transforms are inverse to each other: its
    node identifier is not already of the wrapped form, and when it is a
    canonical blank-node label it holds no dollar sign (which [replace]
    would read as a substitution pattern). *)
Definition roundTripSafe (element : string) : bool :=
  let nodeIdentifier := nodeIdentifier element in
  negb (JsString.startsWith nodeIdentifier "<urn:bnid:_:c14n")
  && (negb (JsString.startsWith nodeIdentifier "_:c14n")
      || JsString.no_dollar nodeIdentifier).


(** ** Bytes and base64 ([Buffer]) *)

Module Base64.

Definition byte_to_Z (b : byte) : Z := Z.of_N (Byte.to_N b).

Definition byte_of_Z (z : Z) : byte :=
  match Byte.of_N (Z.to_N (z mod 256)) with
  | Some b => b
  | None => Byte.x00
  end.

Definition alphabet : string :=
  "ABCDEFGHIJKLMNOPQRSTUVWXYZabcdefghijklmnopqrstuvwxyz0123456789+/".

Definition PAD : ascii := "="%char.

(** The character of a six-bit group. *)
Definition sextet_char (v : Z) : ascii :=
  match String.get (Z.to_nat v) alphabet with
  | Some c => c
  | None => PAD
  end.

Fixpoint index_from (i : Z) (c : ascii) (s : string) : option Z :=
  match s with
  | EmptyString => None
  | String d r => if Ascii.eqb c d then Some i else index_from (i + 1) c r
  end.

(** The six-bit group of a character; the decoder also reads the URL-safe
    characters [-] and [_]. *)
Definition char_sextet (c : ascii) : option Z :=
  if Ascii.eqb c "-"%char then Some 62
  else if Ascii.eqb c "_"%char then Some 63
  else index_from 0 c alphabet.

(** [buffer.toString("base64")] *)
Fixpoint encode (bs : list byte) : string :=
  match bs with
  | [] => EmptyString
  | [a] =>
      let a := byte_to_Z a in
      String (sextet_char (a / 4))
        (String (sextet_char ((a mod 4) * 16))
           (String PAD (String PAD EmptyString)))
  | [a; b] =>
      let a := byte_to_Z a in
      let b := byte_to_Z b in
      String (sextet_char (a / 4))
        (String (sextet_char ((a mod 4) * 16 + b / 16))
           (String (sextet_char ((b mod 16) * 4))
              (String PAD EmptyString)))
  | a :: b :: c :: r =>
      let a := byte_to_Z a in
      let b := byte_to_Z b in
      let c := byte_to_Z c in
      String (sextet_char (a / 4))
        (String (sextet_char ((a mod 4) * 16 + b / 16))
           (String (sextet_char ((b mod 16) * 4 + c / 64))
              (String (sextet_char (c mod 64)) (encode r))))
  end.

(** The six-bit groups of a base64 text: reading stops at the first
    padding character and characters outside the alphabet are skipped. *)
Fixpoint sextets (s : string) : list Z :=
  match s with
  | EmptyString => []
  | String c r =>
      if Ascii.eqb c PAD then []
      else match char_sextet c with
           | Some v => v :: sextets r
           | None => sextets r
           end
  end.

Fixpoint pack (l : list Z) : list byte :=
  match l with
  | w :: x :: y :: z :: r =>
      byte_of_Z (w * 4 + x / 16)
      :: byte_of_Z ((x mod 16) * 16 + y / 4)
      :: byte_of_Z ((y mod 4) * 64 + z)
      :: pack r
  | [w; x; y] =>
      [byte_of_Z (w * 4 + x / 16); byte_of_Z ((x mod 16) * 16 + y / 4)]
  | [w; x] => [byte_of_Z (w * 4 + x / 16)]
  | _ => []
  end.

(** [new Buffer(text, "base64")] *)
Definition decode (s : string) : list byte := pack (sextets s).

Fixpoint bytes_eqb (a b : list byte) : bool :=
  match a, b with
  | [], [] => true
  | x :: a', y :: b' => Byte.eqb x y && bytes_eqb a' b'
  | _, _ => false
  end.

End Base64.

(** ** The random source ([@stablelib/random]) *)

(** The entropy available to the process and how much of it was used. *)
Record rng : Type := Rng { entropy : nat → byte; consumed : nat }.

(** [randomBytes(n)]: the next [n] bytes of entropy. *)
Definition randomBytes (n : nat) (g : rng) : list byte * rng :=
  (map (λ i, entropy g (consumed g + i)%nat) (seq 0 n),
   {| entropy := entropy g; consumed := (consumed g + n)%nat |}).

(** ** JavaScript values

    Numbers are integers: the suite only counts and indexes. *)

#[warnings="-register-all"] Inductive value : Type :=
| VUndefined
| VNull
| VBool (b : bool)
| VNum (n : Z)
| VStr (s : string)
| VArr (l : list value)
| VObj (o : gmap string value).

Abbreviation obj := (gmap string value).

(** ToBoolean *)
Definition truthy (v : value) : bool :=
  match v with
  | VUndefined | VNull => false
  | VBool b => b
  | VNum n => negb (n =? 0)
  | VStr s => negb (String.eqb s EmptyString)
  | VArr _ | VObj _ => true
  end.

(** [typeof v === "object"] *)
Definition typeof_object (v : value) : bool :=
  match v with
  | VNull | VArr _ | VObj _ => true
  | _ => false
  end.

(** [v !== undefined] *)
Definition is_defined (v : value) : bool :=
  match v with VUndefined => false | _ => true end.

(** [v === "text"] *)
Definition strict_eq_string (v : value) (text : string) : bool :=
  match v with VStr s => String.eqb s text | _ => false end.

(** The indexed elements of an array as properties. *)
Definition indexed (l : list value) : obj :=
  list_to_map (imap (λ i v, (pretty i, v)) l).

Fixpoint characters (s : string) : list value :=
  match s with
  | EmptyString => []
  | String c r => VStr (String c EmptyString) :: characters r
  end.

(** The own enumerable properties that an object spread [{...v}] copies. *)
Definition spread (v : value) : obj :=
  match v with
  | VObj o => o
  | VArr l => indexed l
  | VStr s => indexed (characters s)
  | _ => ∅
  end.

(** [o.name] on an object: a missing property reads as [undefined]. *)
Definition get (o : obj) (name : string) : value :=
  default VUndefined (o !! name).

(** ** Thrown values and the error monad *)

(** [ErrorAbout before v after] is [new Error(`before${v}after`)]: the
    message is a template literal around a value, and the text that the
    engine prints for the value is left to it. *)
Inductive thrown : Type :=
| Error (message : string)
| ErrorAbout (before : string) (v : value) (after : string)
| TypeError (message : string)
| Thrown (v : value).

Inductive result (A : Type) : Type :=
| Ok (a : A)
| Err (e : thrown).
Arguments Ok {A} a.
Arguments Err {A} e.

#[global] Instance result_ret : MRet result := λ A a, Ok a.
#[global] Instance result_bind : MBind result := λ A B f m,
  match m with
  | Ok a => f a
  | Err e => Err e
  end.

(** [try { body } catch (error) { handler }] *)
Definition try_catch {A} (body : result A) (handler : thrown → result A)
    : result A :=
  match body with
  | Ok a => Ok a
  | Err e => handler e
  end.

(** Computations that also draw on the random source. *)
Definition M (A : Type) : Type := rng → result A * rng.

#[global] Instance M_ret : MRet M := λ A a g, (Ok a, g).
#[global] Instance M_bind : MBind M := λ A B f m g,
  match m g with
  | (Ok a, g') => f a g'
  | (Err e, g') => (Err e, g')
  end.

Definition lift {A} (r : result A) : M A := λ g, (r, g).
Definition draw (n : nat) : M (list byte) :=
  λ g, let '(bs, g') := randomBytes n g in (Ok bs, g').

(** [v.name]: reading a property of [undefined] or [null] throws (the text
    of the message is the engine's); only own properties are modelled. *)
Definition get_property (v : value) (name : string) : result value :=
  match v with
  | VUndefined =>
      Err (TypeError ("Cannot read properties of undefined (reading '"
                      +:+ name +:+ "')"))
  | VNull =>
      Err (TypeError ("Cannot read properties of null (reading '"
                      +:+ name +:+ "')"))
  | VObj o => Ok (get o name)
  | VArr l =>
      Ok (if String.eqb name "length" then VNum (Z.of_nat (List.length l))
          else get (indexed l) name)
  | VStr s =>
      Ok (if String.eqb name "length" then VNum (Z.of_nat (String.length s))
          else get (indexed (characters s)) name)
  | VBool _ | VNum _ => Ok VUndefined
  end.

(** ** Collaborators *)

(** A document loader resolves an identifier to a document; an expansion
    map, when given, is consulted for unmapped properties.  The suite only
    hands both on to the JSON-LD processor. *)
Definition DocumentLoader : Type := string → result value.
Definition ExpansionMap : Type := option (value → value).

(** The [jsonld] library. *)
Module jsonld.

Record CanonizeOptions : Type := {
  algorithm : string;
  format : string;
  documentLoader : DocumentLoader;
  expansionMap : ExpansionMap;
  skipExpansion : option bool;
  useNative : option bool
}.

Record FrameOptions : Type := {
  frame_documentLoader : DocumentLoader;
  compactToRelative : option bool;
  expandContext : option string
}.

Class api : Type := {
  canonize : value → CanonizeOptions → result string;
  fromRDF : string → result value;
  frame : value → value → FrameOptions → result value
}.

End jsonld.

(** The BBS+ primitive of [@mattrglobal/node-bbs-signatures]. *)
Module bbs.

Record BlsCreateProofRequest : Type := {
  signature : list byte;
  publicKey : list byte;
  messages : list string;
  nonce : value;
  revealed : list Z
}.

Record BlsVerifyProofRequest : Type := {
  proof : list byte;
  verify_publicKey : list byte;
  messageCount : value;
  verify_messages : list string;
  verify_nonce : value;
  verify_revealed : value
}.

Record VerifyProofResult : Type := {
  verified : bool;
  error : option thrown
}.

Class api : Type := {
  blsCreateProof : BlsCreateProofRequest → result (list byte);
  blsVerifyProof : BlsVerifyProofRequest → result VerifyProofResult
}.

End bbs.

(** [Buffer]: a string read as base64 never fails; what the constructor
    makes of any other argument is left to the runtime. *)
Module Buffer.

Class api : Type := {
  from_other : value → result (list byte)
}.

(** [new Buffer(v, "base64")] *)
Definition from_base64 `{api} (v : value) : result (list byte) :=
  match v with
  | VStr s => Ok (Base64.decode s)
  | _ => from_other v
  end.

(** [Buffer.from(bytes).toString("base64")] *)
Definition toString_base64 (bs : list byte) : string := Base64.encode bs.

End Buffer.

(** Constants of [jsonld-signatures]. *)
Module jsigs.

Class api : Type := {
  SECURITY_CONTEXT_URL : string
}.

End jsigs.

Record Bls12381G2KeyPair : Type := {
  publicKeyBuffer : list byte
}.

(** Options of the [createVerify...Data] methods. *)
Module DataOptions.
Record t : Type := {
  documentLoader : DocumentLoader;
  expansionMap : ExpansionMap;
  compactProof : value
}.
End DataOptions.

(** The issuer suite [BbsBlsSignature2020], of which [deriveProof] uses the
    two statement routines. *)
Module BbsBlsSignature2020.

Class api : Type := {
  createVerifyDocumentData :
    Bls12381G2KeyPair → value → DataOptions.t → result (list string);
  createVerifyProofData :
    Bls12381G2KeyPair → obj → DataOptions.t → result (list string)
}.

End BbsBlsSignature2020.

(** ** The suite *)

Module Suite.
Record t : Type := {
  type : string;
  proofSignatureKey : string;
  key : Bls12381G2KeyPair;
  useNativeCanonize : option bool
}.
End Suite.

(** [new BbsBlsSignatureProof2020({ useNativeCanonize, key })] *)
Definition BbsBlsSignatureProof2020
    (useNativeCanonize : option bool) (key : Bls12381G2KeyPair) : Suite.t :=
  {| Suite.type := "BbsBlsSignatureProof2020";
     Suite.proofSignatureKey := "signature";
     Suite.key := key;
     Suite.useNativeCanonize := useNativeCanonize |}.

Module CanonizeOptions.
Record t : Type := {
  documentLoader : DocumentLoader;
  expansionMap : ExpansionMap;
  skipExpansion : option bool
}.
End CanonizeOptions.

Module DeriveProofOptions.
Record t : Type := {
  document : obj;
  proof : obj;
  revealDocument : value;
  documentLoader : DocumentLoader;
  expansionMap : ExpansionMap;
  compactProof : value;
  nonce : value
}.
End DeriveProofOptions.

(** The proof purpose, a collaborator handed in with the options. *)
Module Purpose.

Record Context : Type := {
  document : obj;
  suite : Suite.t;
  verificationMethod : value;
  documentLoader : DocumentLoader;
  expansionMap : ExpansionMap
}.

Record Validation : Type := {
  valid : bool;
  error : thrown
}.

Record t : Type := {
  validate : obj → Context → result Validation
}.

End Purpose.

Module VerifyProofOptions.
Record t : Type := {
  proof : obj;
  document : obj;
  documentLoader : DocumentLoader;
  expansionMap : ExpansionMap;
  purpose : Purpose.t
}.
End VerifyProofOptions.

(** The messages of the errors the suite throws. *)
Definition QUOTE : string := String "034"%char EmptyString.

Definition incompatibleProofMessage : string :=
  "proof document proof incompatible, expected proof type of BbsBlsSignature2020".
Definition mismatchMessage : string :=
  "Some statements in the reveal document not found in original proof".
Definition noVerificationMethodMessage : string :=
  "No " +:+ QUOTE +:+ "verificationMethod" +:+ QUOTE +:+ " found in proof.".
Definition notFoundError (verificationMethod : value) : thrown :=
  ErrorAbout "Verification method " verificationMethod " not found.".
Definition revokedMessage : string :=
  "The verification method has been revoked.".

(** [c14n.split("\n").filter(_ => _.length > 0)] *)
Definition statementsOf (c14n : string) : list string :=
  filter (λ s, (0 <? String.length s)%nat = true)
    (JsString.split JsString.LF c14n).

(** Lines 123-136: the reveal indices. *)
Definition proofRevealIndicies (numberOfProofStatements : nat) : list Z :=
  map Z.of_nat (seq 0 numberOfProofStatements).

Definition documentRevealIndicies
    (transformedInputDocumentStatements revealDocumentStatements
       : list string)
    (numberOfProofStatements : nat) : list Z :=
  map (λ key,
         JsString.indexOf transformedInputDocumentStatements key
         + Z.of_nat numberOfProofStatements)
    revealDocumentStatements.

Section Suite.
Context {jsonld_api : jsonld.api} {bbs_api : bbs.api}
        {Buffer_api : Buffer.api} {jsigs_api : jsigs.api}
        {issuer_api : BbsBlsSignature2020.api}.

(** Lines 260-270 *)
Definition canonize (this : Suite.t) (input : value)
    (options : CanonizeOptions.t) : result string :=
  jsonld.canonize input
    {| jsonld.algorithm := "URDNA2015";
       jsonld.format := "application/n-quads";
       jsonld.documentLoader := CanonizeOptions.documentLoader options;
       jsonld.expansionMap := CanonizeOptions.expansionMap options;
       jsonld.skipExpansion := CanonizeOptions.skipExpansion options;
       jsonld.useNative := Suite.useNativeCanonize this |}.

(** Lines 272-286: the four disclosure fields are removed from a copy. *)
Definition canonizeProof (this : Suite.t) (proof : value)
    (options : CanonizeOptions.t) : result string :=
  let proof := spread proof in
  let proof := delete "totalStatements" proof in
  let proof := delete "revealStatements" proof in
  let proof := delete "nonce" proof in
  let proof := delete "proof" proof in
  canonize this (VObj proof)
    {| CanonizeOptions.documentLoader :=
         CanonizeOptions.documentLoader options;
       CanonizeOptions.expansionMap := CanonizeOptions.expansionMap options;
       CanonizeOptions.skipExpansion := Some false |}.

(** Lines 315-325 *)
Definition createVerifyProofData (this : Suite.t) (proof : value)
    (options : DataOptions.t) : result (list string) :=
  c14nProofOptions ←
    canonizeProof this proof
      {| CanonizeOptions.documentLoader :=
           DataOptions.documentLoader options;
         CanonizeOptions.expansionMap := DataOptions.expansionMap options;
         CanonizeOptions.skipExpansion := None |};
  mret (statementsOf c14nProofOptions).

(** Lines 333-343 *)
Definition createVerifyDocumentData (this : Suite.t) (document : value)
    (options : DataOptions.t) : result (list string) :=
  c14nDocument ←
    canonize this document
      {| CanonizeOptions.documentLoader :=
           DataOptions.documentLoader options;
         CanonizeOptions.expansionMap := DataOptions.expansionMap options;
         CanonizeOptions.skipExpansion := None |};
  mret (statementsOf c14nDocument).

(** Lines 293-307 *)
Definition createVerifyData (this : Suite.t) (proof document : value)
    (options : DataOptions.t) : result (list string) :=
  proofStatements ← createVerifyProofData this proof options;
  documentStatements ← createVerifyDocumentData this document options;
  mret (proofStatements ++ documentStatements).

(** Lines 352-356: the reference to the verification method, directly or
    as the identifier of an embedded object. *)
Definition verificationMethodReference (proof : obj) : result value :=
  let verificationMethod := get proof "verificationMethod" in
  if typeof_object verificationMethod
  then get_property verificationMethod "id"
  else mret verificationMethod.

(** Lines 363-375: the method document, always embedded. *)
Definition frameVerificationMethod (verificationMethod : value)
    (documentLoader : DocumentLoader) : result value :=
  jsonld.frame verificationMethod
    (VObj (<["@context" := VStr jsigs.SECURITY_CONTEXT_URL]>
             (<["@embed" := VStr "@always"]>
                {["id" := verificationMethod]})))
    {| jsonld.frame_documentLoader := documentLoader;
       jsonld.compactToRelative := Some false;
       jsonld.expandContext := Some jsigs.SECURITY_CONTEXT_URL |}.

(** Lines 351-386 *)
Definition getVerificationMethod (proof : obj)
    (documentLoader : DocumentLoader) : result value :=
  verificationMethod ← verificationMethodReference proof;
  if negb (truthy verificationMethod) then
    Err (Error noVerificationMethodMessage)
  else
    result ← frameVerificationMethod verificationMethod documentLoader;
    if negb (truthy result) then
      Err (notFoundError verificationMethod)
    else
      revoked ← get_property result "revoked";
      if is_defined revoked then Err (Error revokedMessage)
      else mret result.

(** Lines 46-180 *)
Definition deriveProof (this : Suite.t) (options : DeriveProofOptions.t)
    : M obj :=
  let document := DeriveProofOptions.document options in
  let proof := DeriveProofOptions.proof options in
  let revealDocument := DeriveProofOptions.revealDocument options in
  let documentLoader := DeriveProofOptions.documentLoader options in
  let expansionMap := DeriveProofOptions.expansionMap options in
  let compactProof := DeriveProofOptions.compactProof options in
  let nonce := DeriveProofOptions.nonce options in
  if negb (strict_eq_string (get proof "type") "BbsBlsSignature2020") then
    lift (Err (TypeError incompatibleProofMessage))
  else
    signature ← lift (Buffer.from_base64 (get proof "signature"));
    (* new BbsBlsSignature2020({ key: this.key }) *)
    let suite := Suite.key this in
    documentStatements ←
      lift (BbsBlsSignature2020.createVerifyDocumentData suite
              (VObj document)
              {| DataOptions.documentLoader := documentLoader;
                 DataOptions.expansionMap := expansionMap;
                 DataOptions.compactProof := compactProof |});
    proofStatements ←
      lift (BbsBlsSignature2020.createVerifyProofData suite proof
              {| DataOptions.documentLoader := documentLoader;
                 DataOptions.expansionMap := expansionMap;
                 DataOptions.compactProof := compactProof |});
    let transformedInputDocumentStatements :=
      transformedInputDocumentStatements documentStatements in
    compactInputProofDocument ←
      lift (jsonld.fromRDF
              (JsString.join JsString.LF
                 transformedInputDocumentStatements));
    revealDocumentResult ←
      lift (jsonld.frame compactInputProofDocument revealDocument
              {| jsonld.frame_documentLoader := documentLoader;
                 jsonld.compactToRelative := None;
                 jsonld.expandContext := None |});
    revealDocumentStatements ←
      lift (BbsBlsSignature2020.createVerifyDocumentData suite
              revealDocumentResult
              {| DataOptions.documentLoader := documentLoader;
                 DataOptions.expansionMap := expansionMap;
                 DataOptions.compactProof := VUndefined |});
    let numberOfProofStatements := List.length proofStatements in
    let proofRevealIndicies :=
      proofRevealIndicies numberOfProofStatements in
    let documentRevealIndicies :=
      documentRevealIndicies transformedInputDocumentStatements
        revealDocumentStatements numberOfProofStatements in
    if negb (List.length documentRevealIndicies
             =? List.length revealDocumentStatements)%nat then
      lift (Err (Error mismatchMessage))
    else
      let revealIndicies := proofRevealIndicies ++ documentRevealIndicies in
      nonce ←
        (if negb (truthy nonce) then
           bytes ← draw 50;
           mret (VStr (Buffer.toString_base64 bytes))
         else mret nonce);
      let allInputStatements := proofStatements ++ documentStatements in
      outputProof ←
        lift (bbs.blsCreateProof
                {| bbs.signature := signature;
                   bbs.publicKey := publicKeyBuffer (Suite.key this);
                   bbs.messages := allInputStatements;
                   bbs.nonce := nonce;
                   bbs.revealed := revealIndicies |});
      let inputProof := delete "type" (delete "signature" proof) in
      mret
        (<["proof" :=
             VObj
               (<["nonce" := nonce]>
                  (<["totalStatements" :=
                       VNum (Z.of_nat (List.length allInputStatements))]>
                     (<["revealStatements" := VArr (VNum <$> revealIndicies)]>
                        (<["proof" :=
                             VStr (Buffer.toString_base64 outputProof)]>
                           (inputProof
                            ∪ {["type" := VStr (Suite.type this)]})))))]>
           (spread revealDocumentResult)).

(** The parts of [deriveProof] by themselves, for stating what a
    derivation did. *)

(** Lines 70-82: the statements that were signed. *)
Definition issuerStatements (this : Suite.t)
    (options : DeriveProofOptions.t)
    : result (list string * list string) :=
  let dataOptions :=
    {| DataOptions.documentLoader :=
         DeriveProofOptions.documentLoader options;
       DataOptions.expansionMap := DeriveProofOptions.expansionMap options;
       DataOptions.compactProof := DeriveProofOptions.compactProof options |}
  in
  documentStatements ←
    BbsBlsSignature2020.createVerifyDocumentData (Suite.key this)
      (VObj (DeriveProofOptions.document options)) dataOptions;
  proofStatements ←
    BbsBlsSignature2020.createVerifyProofData (Suite.key this)
      (DeriveProofOptions.proof options) dataOptions;
  mret (proofStatements, documentStatements).

(** Lines 100-119: the framed reveal document and its statements. *)
Definition revealedSubgraph (this : Suite.t)
    (options : DeriveProofOptions.t) (documentStatements : list string)
    : result (value * list string) :=
  compactInputProofDocument ←
    jsonld.fromRDF
      (JsString.join JsString.LF
         (transformedInputDocumentStatements documentStatements));
  revealDocumentResult ←
    jsonld.frame compactInputProofDocument
      (DeriveProofOptions.revealDocument options)
      {| jsonld.frame_documentLoader :=
           DeriveProofOptions.documentLoader options;
         jsonld.compactToRelative := None;
         jsonld.expandContext := None |};
  revealDocumentStatements ←
    BbsBlsSignature2020.createVerifyDocumentData (Suite.key this)
      revealDocumentResult
      {| DataOptions.documentLoader :=
           DeriveProofOptions.documentLoader options;
         DataOptions.expansionMap :=
           DeriveProofOptions.expansionMap options;
         DataOptions.compactProof := VUndefined |};
  mret (revealDocumentResult, revealDocumentStatements).

(** Lines 123-145 *)
Definition revealIndicies
    (proofStatements documentStatements revealDocumentStatements
       : list string) : list Z :=
  proofRevealIndicies (List.length proofStatements)
  ++ documentRevealIndicies
       (transformedInputDocumentStatements documentStatements)
       revealDocumentStatements (List.length proofStatements).

(** Lines 147-150 *)
Definition resolveNonce (nonce : value) : M value :=
  if negb (truthy nonce) then
    bytes ← draw 50;
    mret (VStr (Buffer.toString_base64 bytes))
  else mret nonce.

(** Lines 164-179 *)
Definition derivedDocument (this : Suite.t) (proof : obj)
    (revealDocumentResult : value) (revealIndicies : list Z)
    (totalStatements : nat) (nonce : value) (outputProof : list byte)
    : obj :=
  let inputProof := delete "type" (delete "signature" proof) in
  <["proof" :=
      VObj
        (<["nonce" := nonce]>
           (<["totalStatements" := VNum (Z.of_nat totalStatements)]>
              (<["revealStatements" := VArr (VNum <$> revealIndicies)]>
                 (<["proof" := VStr (Buffer.toString_base64 outputProof)]>
                    (inputProof ∪ {["type" := VStr (Suite.type this)]})))))]>
    (spread revealDocumentResult).

(** The [proof] property of a derived document. *)
Definition derivedProof (derived : obj) : obj :=
  spread (get derived "proof").

(** The fields a derived proof has on top of the issuer's. *)
Definition disclosureFields : list string :=
  ["totalStatements"; "revealStatements"; "nonce"; "proof"].

(** Lines 191-254: the body of the [try] block. *)
Definition verifyProof_try (this : Suite.t)
    (options : VerifyProofOptions.t) : result bbs.VerifyProofResult :=
  let proof := VerifyProofOptions.proof options in
  let document := VerifyProofOptions.document options in
  let documentLoader := VerifyProofOptions.documentLoader options in
  let expansionMap := VerifyProofOptions.expansionMap options in
  let purpose := VerifyProofOptions.purpose options in
  proofStatements ←
    createVerifyProofData this (VObj proof)
      {| DataOptions.documentLoader := documentLoader;
         DataOptions.expansionMap := expansionMap;
         DataOptions.compactProof := VUndefined |};
  documentStatements ←
    createVerifyProofData this (VObj document)
      {| DataOptions.documentLoader := documentLoader;
         DataOptions.expansionMap := expansionMap;
         DataOptions.compactProof := VUndefined |};
  let transformedDocumentStatements :=
    transformedDocumentStatements documentStatements in
  let statementsToVerify :=
    proofStatements ++ transformedDocumentStatements in
  verificationMethod ← getVerificationMethod proof documentLoader;
  proofBytes ← Buffer.from_base64 (get proof "proof");
  verified ←
    bbs.blsVerifyProof
      {| bbs.proof := proofBytes;
         bbs.verify_publicKey := publicKeyBuffer (Suite.key this);
         bbs.messageCount := get proof "totalStatements";
         bbs.verify_messages := statementsToVerify;
         bbs.verify_nonce := get proof "nonce";
         bbs.verify_revealed := get proof "revealStatements" |};
  validation ←
    Purpose.validate purpose proof
      {| Purpose.document := document;
         Purpose.suite := this;
         Purpose.verificationMethod := verificationMethod;
         Purpose.documentLoader := documentLoader;
         Purpose.expansionMap := expansionMap |};
  if negb (Purpose.valid validation) then Err (Purpose.error validation)
  else mret verified.

(** The parts of the [try] block by themselves. *)

(** Lines 191-222 *)
Definition statementsToVerify (this : Suite.t)
    (options : VerifyProofOptions.t) : result (list string) :=
  let dataOptions :=
    {| DataOptions.documentLoader :=
         VerifyProofOptions.documentLoader options;
       DataOptions.expansionMap := VerifyProofOptions.expansionMap options;
       DataOptions.compactProof := VUndefined |} in
  proofStatements ←
    createVerifyProofData this (VObj (VerifyProofOptions.proof options))
      dataOptions;
  documentStatements ←
    createVerifyProofData this (VObj (VerifyProofOptions.document options))
      dataOptions;
  mret (proofStatements
        ++ transformedDocumentStatements documentStatements).

(** Lines 233-240: what the primitive is asked. *)
Definition verifyRequest (this : Suite.t) (proof : obj)
    (proofBytes : list byte) (statementsToVerify : list string)
    : bbs.BlsVerifyProofRequest :=
  {| bbs.proof := proofBytes;
     bbs.verify_publicKey := publicKeyBuffer (Suite.key this);
     bbs.messageCount := get proof "totalStatements";
     bbs.verify_messages := statementsToVerify;
     bbs.verify_nonce := get proof "nonce";
     bbs.verify_revealed := get proof "revealStatements" |}.

Definition cryptographicCheck (this : Suite.t)
    (options : VerifyProofOptions.t) (statementsToVerify : list string)
    : result bbs.VerifyProofResult :=
  let proof := VerifyProofOptions.proof options in
  proofBytes ← Buffer.from_base64 (get proof "proof");
  bbs.blsVerifyProof (verifyRequest this proof proofBytes statementsToVerify).

(** Lines 243-249 *)
Definition purposeCheck (this : Suite.t) (options : VerifyProofOptions.t)
    (verificationMethod : value) : result Purpose.Validation :=
  Purpose.validate (VerifyProofOptions.purpose options)
    (VerifyProofOptions.proof options)
    {| Purpose.document := VerifyProofOptions.document options;
       Purpose.suite := this;
       Purpose.verificationMethod := verificationMethod;
       Purpose.documentLoader := VerifyProofOptions.documentLoader options;
       Purpose.expansionMap := VerifyProofOptions.expansionMap options |}.

(** Lines 187-258 *)
Definition verifyProof (this : Suite.t) (options : VerifyProofOptions.t)
    : result bbs.VerifyProofResult :=
  try_catch (verifyProof_try this options)
    (λ error, mret {| bbs.verified := false; bbs.error := Some error |}).

End Suite.

(** ** Deriving and then verifying *)

(** The derived output is taken apart the way [jsonld-signatures] hands it
    to a suite: the [proof] property is the proof, the rest is the document
    (the security context that library adds to the proof is left out). *)
Definition verifyOptionsOf (derived : obj) (options : DeriveProofOptions.t)
    (purpose : Purpose.t) : VerifyProofOptions.t :=
  {| VerifyProofOptions.proof := derivedProof derived;
     VerifyProofOptions.document := delete "proof" derived;
     VerifyProofOptions.documentLoader :=
       DeriveProofOptions.documentLoader options;
     VerifyProofOptions.expansionMap :=
       DeriveProofOptions.expansionMap options;
     VerifyProofOptions.purpose := purpose |}.

(** ** A small concrete world

    Documents are graphs given as a list of N-Quads lines under [@graph];
    canonicalization writes the lines out, framing returns the lines the
    template asks for, and a verification method is whatever the document
    loader answers for its identifier. *)
Module World.

Definition line (v : value) : string :=
  match v with
  | VStr s => s +:+ String JsString.LF EmptyString
  | _ => EmptyString
  end.

Definition property_line (p : string * value) : string :=
  match p.2 with
  | VStr s =>
      "_:c14n0 <https://w3id.org/security#" +:+ p.1 +:+ "> <" +:+ s
      +:+ "> ." +:+ String JsString.LF EmptyString
  | _ => EmptyString
  end.

Definition canonize (input : value) (options : jsonld.CanonizeOptions)
    : result string :=
  match input with
  | VObj o =>
      match o !! "@graph" with
      | Some (VArr l) => Ok (String.concat EmptyString (map line l))
      | _ =>
          Ok (String.concat EmptyString
                (map property_line (map_to_list o)))
      end
  | _ => Err (Error "jsonld.SyntaxError")
  end.

Definition fromRDF (dataset : string) : result value :=
  Ok (VObj {["@graph" := VArr (VStr <$> statementsOf dataset)]}).

Definition frame (input frame : value) (options : jsonld.FrameOptions)
    : result value :=
  match input with
  | VStr id => jsonld.frame_documentLoader options id
  | _ => Ok (VObj {["@graph" := get (spread frame) "@graph"]})
  end.

#[local] Instance jsonld_api : jsonld.api :=
  {| jsonld.canonize := canonize;
     jsonld.fromRDF := fromRDF;
     jsonld.frame := frame |}.

(** A stand-in primitive: the derived proof is the signature, and it is
    accepted when it equals the public key. *)
#[local] Instance bbs_api : bbs.api :=
  {| bbs.blsCreateProof := λ request, Ok (bbs.signature request);
     bbs.blsVerifyProof := λ request,
       Ok {| bbs.verified :=
               Base64.bytes_eqb (bbs.proof request)
                 (bbs.verify_publicKey request);
             bbs.error := None |} |}.

#[local] Instance Buffer_api : Buffer.api :=
  {| Buffer.from_other := λ _,
       Err (TypeError "The first argument must be of type string") |}.

#[local] Instance jsigs_api : jsigs.api :=
  {| jsigs.SECURITY_CONTEXT_URL := "https://w3id.org/security/v2" |}.

#[local] Instance issuer_api : BbsBlsSignature2020.api :=
  {| BbsBlsSignature2020.createVerifyDocumentData := λ _ document _,
       c14n ← canonize document
                {| jsonld.algorithm := "URDNA2015";
                   jsonld.format := "application/n-quads";
                   jsonld.documentLoader := λ _, Ok VUndefined;
                   jsonld.expansionMap := None;
                   jsonld.skipExpansion := None;
                   jsonld.useNative := None |};
       mret (statementsOf c14n);
     BbsBlsSignature2020.createVerifyProofData := λ _ proof _,
       c14n ← canonize (VObj (delete "signature" proof))
                {| jsonld.algorithm := "URDNA2015";
                   jsonld.format := "application/n-quads";
                   jsonld.documentLoader := λ _, Ok VUndefined;
                   jsonld.expansionMap := None;
                   jsonld.skipExpansion := Some false;
                   jsonld.useNative := None |};
       mret (statementsOf c14n) |}.

Definition keyPair : Bls12381G2KeyPair :=
  {| publicKeyBuffer := [Byte.x01; Byte.x02; Byte.x03; Byte.x04] |}.

Definition suite : Suite.t := BbsBlsSignatureProof2020 (Some false) keyPair.

Definition familyName : string :=
  "<did:example:alice> <http://schema.org/familyName> <did:example:Doe> .".
Definition givenName : string :=
  "<did:example:alice> <http://schema.org/givenName> <did:example:Jane> .".
Definition address : string :=
  "_:c14n0 <http://schema.org/addressCountry> <did:example:NZ> .".
Definition email : string :=
  "<did:example:alice> <http://schema.org/email> <mailto:jane@example.com> .".
(** A statement whose subject is a genuine identifier of the wrapped
    form. *)
Definition wrapped : string :=
  "<urn:bnid:_:c14n0> <http://schema.org/name> <did:example:Doe> .".

Definition signedDocument : obj :=
  {["@graph" := VArr [VStr familyName; VStr givenName; VStr address]]}.

Definition methodId : string := "did:example:489398593#test".

Definition signatureText : string :=
  Buffer.toString_base64 (publicKeyBuffer keyPair).

Definition inputProof : obj :=
  <["type" := VStr "BbsBlsSignature2020"]>
    (<["verificationMethod" := VStr methodId]>
       {["signature" := VStr signatureText]}).

Definition reveal (lines : list string) : value :=
  VObj {["@graph" := VArr (VStr <$> lines)]}.

(** The loader answers the key document, revoked or not. *)
Definition loader (revoked : bool) : DocumentLoader := λ id,
  Ok (VObj (if revoked
            then <["revoked" := VStr "2020-05-01"]> {["id" := VStr id]}
            else {["id" := VStr id]})).

Definition deriveOptions (revoked : bool) (lines : list string)
    (nonce : value) : DeriveProofOptions.t :=
  {| DeriveProofOptions.document := signedDocument;
     DeriveProofOptions.proof := inputProof;
     DeriveProofOptions.revealDocument := reveal lines;
     DeriveProofOptions.documentLoader := loader revoked;
     DeriveProofOptions.expansionMap := None;
     DeriveProofOptions.compactProof := VBool false;
     DeriveProofOptions.nonce := nonce |}.

Definition purpose (valid : bool) : Purpose.t :=
  {| Purpose.validate := λ _ _,
       Ok {| Purpose.valid := valid;
             Purpose.error := Error "purpose is not valid" |} |}.

Definition zeros : rng := {| entropy := λ _, Byte.x00; consumed := 0 |}.

Definition derive (revoked : bool) (lines : list string) (nonce : value)
    : result obj * rng :=
  deriveProof suite (deriveOptions revoked lines nonce) zeros.

(** The statements of the signed proof and of the signed document. *)
Definition proofStatements : list string :=
  ["_:c14n0 <https://w3id.org/security#verificationMethod> <did:example:489398593#test> .";
   "_:c14n0 <https://w3id.org/security#type> <BbsBlsSignature2020> ."].

Definition documentStatements : list string :=
  [familyName; givenName; address].

(** The statements of a derived proof. *)
Definition derivedProofStatements : list string :=
  ["_:c14n0 <https://w3id.org/security#verificationMethod> <did:example:489398593#test> .";
   "_:c14n0 <https://w3id.org/security#type> <BbsBlsSignatureProof2020> ."].

(** The document derived for the given reveal lines, indices and
    nonce. *)
Definition derived (lines : list string) (indices : list Z)
    (nonce : value) : obj :=
  derivedDocument suite inputProof (reveal lines) indices 5 nonce
    (publicKeyBuffer keyPair).

(** The nonce made from 50 bytes of [zeros]. *)
Definition zeroNonce : value :=
  VStr (Buffer.toString_base64 (randomBytes 50 zeros).1).

Definition verifyOptions (derived : obj) (revoked valid : bool)
    : VerifyProofOptions.t :=
  verifyOptionsOf derived (deriveOptions revoked [] VUndefined)
    (purpose valid).

Definition verify (derived : obj) (revoked valid : bool)
    : result bbs.VerifyProofResult :=
  verifyProof suite (verifyOptions derived revoked valid).

Definition deriveThenVerify (revoked valid : bool) (lines : list string)
    (nonce : value) : result bbs.VerifyProofResult :=
  derived ← (derive revoked lines nonce).1;
  verify derived revoked valid.

End World.

(** ** Notions for the further properties *)

(** A string without any line feed. *)
Fixpoint no_newline (s : string) : bool :=
  match s with
  | EmptyString => true
  | String c r => negb (Ascii.eqb c JsString.LF) && no_newline r
  end.

(** What the statement routines keep of a canonical text: a non-empty
    line. *)
Definition isStatement (s : string) : bool :=
  (0 <? String.length s)%nat && no_newline s.

(** A statement whose node identifier has the wrapped form. *)
Definition isWrapped (element : string) : bool :=
  JsString.startsWith (nodeIdentifier element) "<urn:bnid:_:c14n".

(** A statement whose node identifier has the form of a canonical
    blank-node label. *)
Definition isBlank (element : string) : bool :=
  JsString.startsWith (nodeIdentifier element) "_:c14n".

(** The properties of the issuer's proof that a derived proof does not take
    over: two are dropped, four are set anew. *)
Definition replacedFields : list string :=
  ["signature"; "type"; "proof"; "revealStatements"; "totalStatements";
   "nonce"].

(** ** More of the concrete world *)
Module Scenario.

(** The blank-node statement of the signed document, stabilized. *)
Definition wrappedAddress : string :=
  "<urn:bnid:_:c14n0> <http://schema.org/addressCountry> <did:example:NZ> .".

(** A wrapped statement whose node identifier ends in a digit, not in the
    closing bracket. *)
Definition unclosed : string :=
  "<urn:bnid:_:c14n12 <http://schema.org/name> <did:example:Doe> .".

(** A reveal document asking for every statement. *)
Definition everything : list string :=
  [World.familyName; World.givenName; wrappedAddress].

Definition derivedEverything : obj :=
  World.derived everything [0; 1; 2; 3; 4] (VStr "abc").

Definition derivedGivenName : obj :=
  World.derived [World.givenName] [0; 1; 3] (VStr "abc").

(** An issuer proof of another suite, and one without a signature. *)
Definition foreignProof : obj :=
  <["type" := VStr "Ed25519Signature2018"]> World.inputProof.

Definition unsignedProof : obj := delete "signature" World.inputProof.

Definition optionsWith (proof : obj) (nonce : value)
    : DeriveProofOptions.t :=
  {| DeriveProofOptions.document := World.signedDocument;
     DeriveProofOptions.proof := proof;
     DeriveProofOptions.revealDocument := World.reveal [World.givenName];
     DeriveProofOptions.documentLoader := World.loader false;
     DeriveProofOptions.expansionMap := None;
     DeriveProofOptions.compactProof := VBool false;
     DeriveProofOptions.nonce := nonce |}.

(** The verification method as an embedded object, and as [null]. *)
Definition embeddedMethod : obj := {["id" := VStr World.methodId]}.

Definition verifyOptionsWith (proof : obj) : VerifyProofOptions.t :=
  {| VerifyProofOptions.proof := proof;
     VerifyProofOptions.document := delete "proof" derivedGivenName;
     VerifyProofOptions.documentLoader := World.loader false;
     VerifyProofOptions.expansionMap := None;
     VerifyProofOptions.purpose := World.purpose true |}.

Definition nullMethodProof : obj :=
  <["verificationMethod" := VNull]> (derivedProof derivedGivenName).

(** A derived proof whose bytes the stand-in primitive rejects. *)
Definition forgedProof : obj :=
  <["proof" := VStr (Buffer.toString_base64 [Byte.x09])]>
    (derivedProof derivedGivenName).

End Scenario.

(** ** A primitive that checks the messages

    A second stand-in for the BBS+ primitive, for running a derivation and
    the verification of its output together: a signature is valid when it
    equals the public key, the derived proof spells out the signed messages
    at the revealed indices, and that proof is accepted exactly when the
    messages presented with it are those. *)
Module Checking.

(** The messages at the given indices. *)
Fixpoint select (messages : list string) (revealed : list Z)
    : option (list string) :=
  match revealed with
  | [] => Some []
  | index :: revealed =>
      if index <? 0 then None
      else
        match messages !! Z.to_nat index, select messages revealed with
        | Some message, Some selected => Some (message :: selected)
        | _, _ => None
        end
  end.

(** The revealed messages, one per line, as bytes. *)
Definition disclosed (messages : list string) : list byte :=
  String.list_byte_of_string (JsString.join JsString.LF messages).

#[local] Instance bbs_api : bbs.api :=
  {| bbs.blsCreateProof := λ request,
       if Base64.bytes_eqb (bbs.signature request) (bbs.publicKey request)
       then
         match select (bbs.messages request) (bbs.revealed request) with
         | Some selected => Ok (disclosed selected)
         | None => Err (Error "Failed to create proof")
         end
       else Err (Error "Failed to create proof");
     bbs.blsVerifyProof := λ request,
       Ok {| bbs.verified :=
               Base64.bytes_eqb (bbs.proof request)
                 (disclosed (bbs.verify_messages request));
             bbs.error := None |} |}.

(** The derivation of the given-name statement from the signed document of
    the concrete world, under the nonce [abc]. *)
Definition deriveOptions : DeriveProofOptions.t :=
  World.deriveOptions false [World.givenName] (VStr "abc").

(** The messages that were signed, at the indices the derivation
    publishes. *)
Definition revealedMessages : list string :=
  World.proofStatements ++ [World.givenName].

(** The document that the derivation returns. *)
Definition derived : obj :=
  derivedDocument World.suite World.inputProof
    (World.reveal [World.givenName]) [0; 1; 3] 5 (VStr "abc")
    (disclosed revealedMessages).

(** The verification of that document: the key is not revoked and the
    purpose is valid. *)
Definition verifyOptions : VerifyProofOptions.t :=
  verifyOptionsOf derived deriveOptions (World.purpose true).

End Checking.

(** * Properties *)

(** ** Strings *)

#[local] Arguments String.append !_ _ / : simpl nomatch.

Module JsStringFacts.
Import JsString.

Lemma append_assoc (a b c : string) : (a +:+ b) +:+ c = a +:+ (b +:+ c).
Proof. induction a as [|x a IH]; simpl; congruence. Qed.

Lemma append_nil_r (a : string) : a +:+ EmptyString = a.
Proof. induction a as [|x a IH]; simpl; congruence. Qed.

Lemma length_append (a b : string) :
  String.length (a +:+ b) = (String.length a + String.length b)%nat.
Proof. induction a as [|x a IH]; simpl; congruence. Qed.

Lemma strip_prefix_app (p r : string) : strip_prefix p (p +:+ r) = Some r.
Proof.
  induction p as [|x p IH]; simpl; [done |].
  by rewrite Ascii.eqb_refl.
Qed.

Lemma strip_prefix_Some (p s r : string) :
  strip_prefix p s = Some r → s = p +:+ r.
Proof.
  revert s; induction p as [|x p IH]; intros [|y s]; simpl; try congruence.
  destruct (Ascii.eqb_spec x y) as [->|]; [|done].
  intros H; by rewrite (IH _ H).
Qed.

Lemma startsWith_app (p r : string) : startsWith (p +:+ r) p = true.
Proof. unfold startsWith. by rewrite strip_prefix_app. Qed.

Lemma startsWith_app_l (a r p : string) :
  startsWith a p = true → startsWith (a +:+ r) p = true.
Proof.
  unfold startsWith. destruct (strip_prefix p a) as [t|] eqn:E; [|done].
  intros _. apply strip_prefix_Some in E. subst a.
  by rewrite append_assoc, strip_prefix_app.
Qed.

Lemma take_append (a b : string) : take (String.length a) (a +:+ b) = a.
Proof. induction a as [|x a IH]; simpl; [by destruct b | congruence]. Qed.

Lemma drop_append (a b : string) : drop (String.length a) (a +:+ b) = b.
Proof. induction a as [|x a IH]; simpl; done. Qed.

Lemma find_sub_prefix (p r : string) :
  find_sub p (p +:+ r) = Some (EmptyString, r).
Proof.
  pose proof (strip_prefix_app p r) as H.
  destruct (p +:+ r); simpl; by rewrite H.
Qed.

Lemma replace_prefix (p r repl : string) :
  replace (p +:+ r) p repl = GetSubstitution p EmptyString r repl +:+ r.
Proof. unfold replace. by rewrite find_sub_prefix. Qed.

Lemma GetSubstitution_no_dollar (m b a t : string) :
  no_dollar t = true → GetSubstitution m b a t = t.
Proof.
  induction t as [|c t IH]; simpl; [done |].
  intros [Hc Ht]%andb_prop. apply negb_true_iff in Hc.
  rewrite Hc. by rewrite IH.
Qed.

Lemma no_dollar_app (a b : string) :
  no_dollar (a +:+ b) = no_dollar a && no_dollar b.
Proof. induction a as [|x a IH]; simpl; [done | by rewrite IH, andb_assoc]. Qed.

Lemma no_space_app (a b : string) :
  no_space (a +:+ b) = no_space a && no_space b.
Proof. induction a as [|x a IH]; simpl; [done | by rewrite IH, andb_assoc]. Qed.

Lemma split_nonempty (sep : ascii) (s : string) : split sep s ≠ [].
Proof.
  induction s as [|c s IH]; simpl; [done |].
  destruct (Ascii.eqb c sep); [done |]. by destruct (split sep s).
Qed.

Lemma indexOf_from_shift (i : Z) (l : list string) (key : string) :
  indexOf_from i l key
  = if indexOf_from 0 l key <? 0 then -1 else i + indexOf_from 0 l key.
Proof.
  revert i; induction l as [|x l IH]; intros i; simpl; [done |].
  destruct (String.eqb x key).
  - simpl. f_equal. lia.
  - rewrite (IH (i + 1)), (IH (0 + 1)).
    destruct (indexOf_from 0 l key <? 0) eqn:E; simpl; [done |].
    apply Z.ltb_ge in E.
    destruct (_ <? 0) eqn:E'; [apply Z.ltb_lt in E'; lia | lia].
Qed.

Lemma indexOf_from_range (l : list string) (key : string) :
  -1 ≤ indexOf_from 0 l key < Z.of_nat (List.length l).
Proof.
  induction l as [|x l IH]; simpl; [lia |].
  destruct (String.eqb x key); [lia |].
  rewrite indexOf_from_shift.
  destruct (indexOf_from 0 l key <? 0) eqn:E; [lia |].
  apply Z.ltb_ge in E. lia.
Qed.

(** [indexOf] answers [-1] exactly for a string that is not in the array. *)
Lemma indexOf_absent (l : list string) (key : string) :
  indexOf l key = -1 ↔ key ∉ l.
Proof.
  unfold indexOf. induction l as [|x l IH]; simpl.
  - split; [intros _; apply not_elem_of_nil | done].
  - destruct (String.eqb_spec x key) as [->|Hne].
    + split; [lia | intros H; exfalso; apply H; left].
    + rewrite indexOf_from_shift, not_elem_of_cons.
      pose proof (indexOf_from_range l key).
      destruct (indexOf_from 0 l key <? 0) eqn:E.
      * apply Z.ltb_lt in E. split; [|done].
        intros _. split; [congruence | apply IH; lia].
      * apply Z.ltb_ge in E. split; [lia |].
        intros [_ H']. apply IH in H'. lia.
Qed.

(** A found string sits at the index [indexOf] answers. *)
Lemma indexOf_present (l : list string) (key : string) :
  key ∈ l →
  0 ≤ indexOf l key ∧ l !! Z.to_nat (indexOf l key) = Some key.
Proof.
  unfold indexOf. induction l as [|x l IH]; simpl.
  - intros H. by apply elem_of_nil in H.
  - destruct (String.eqb_spec x key) as [->|Hne]; [done |].
    intros [?|Hin]%elem_of_cons; [congruence |].
    destruct (IH Hin) as [H0 Hl].
    rewrite indexOf_from_shift.
    destruct (indexOf_from 0 l key <? 0) eqn:E; [apply Z.ltb_lt in E; lia |].
    split; [lia |].
    replace (Z.to_nat (0 + 1 + indexOf_from 0 l key))
      with (S (Z.to_nat (indexOf_from 0 l key))) by lia.
    done.
Qed.

End JsStringFacts.

(** ** Base64 *)

Module Base64Facts.
Import Base64.

Lemma byte_to_Z_range (b : byte) : 0 ≤ byte_to_Z b < 256.
Proof.
  unfold byte_to_Z. pose proof (Byte.to_N_bounded b). lia.
Qed.

Lemma byte_of_to_Z (b : byte) : byte_of_Z (byte_to_Z b) = b.
Proof.
  unfold byte_of_Z. pose proof (byte_to_Z_range b).
  rewrite Z.mod_small by done.
  unfold byte_to_Z. by rewrite N2Z.id, Byte.of_to_N.
Qed.

Lemma byte_of_Z_eq (z : Z) (b : byte) : z = byte_to_Z b → byte_of_Z z = b.
Proof. intros ->. apply byte_of_to_Z. Qed.

(** Each of the 64 characters is read back as its six-bit group. *)
Lemma char_sextet_char (v : Z) :
  0 ≤ v < 64 →
  Ascii.eqb (sextet_char v) PAD = false
  ∧ char_sextet (sextet_char v) = Some v.
Proof.
  intros Hv.
  rewrite <- (Z2Nat.id v) by lia.
  assert (Z.to_nat v < 64)%nat as Hn by lia.
  generalize dependent (Z.to_nat v). clear Hv. intros n Hn.
  do 64 (destruct n as [|n]; [by vm_compute |]).
  lia.
Qed.

Lemma sextets_cons (v : Z) (s : string) :
  0 ≤ v < 64 → sextets (String (sextet_char v) s) = v :: sextets s.
Proof.
  intros Hv. destruct (char_sextet_char v Hv) as [Hp Hc].
  simpl. by rewrite Hp, Hc.
Qed.

(** Lists three elements at a time. *)
Lemma list_ind3 {A} (P : list A → Prop) :
  P [] → (∀ a, P [a]) → (∀ a b, P [a; b]) →
  (∀ a b c r, P r → P (a :: b :: c :: r)) →
  ∀ l, P l.
Proof.
  intros H0 H1 H2 H3 l.
  assert (P l ∧ (∀ a, P (a :: l)) ∧ (∀ a b, P (a :: b :: l)))
    as (? & _); [|done].
  induction l as [|x l (IH0 & IH1 & IH2)]; [done |].
  split_and!;
    [exact (IH1 x) | intros a; exact (IH2 a x)
    | intros a b; exact (H3 a b x l IH0)].
Qed.

(** Decoding what was encoded gives the bytes back. *)
Lemma decode_encode (bs : list byte) : decode (encode bs) = bs.
Proof.
  unfold decode. induction bs as [|a|a b|a b c r IH] using list_ind3.
  - done.
  - pose proof (byte_to_Z_range a). cbn [encode].
    rewrite !sextets_cons by (Z.div_mod_to_equations; lia).
    simpl. f_equal. apply byte_of_Z_eq. Z.div_mod_to_equations; lia.
  - pose proof (byte_to_Z_range a). pose proof (byte_to_Z_range b).
    cbn [encode].
    rewrite !sextets_cons by (Z.div_mod_to_equations; lia).
    simpl. f_equal; [|f_equal];
      apply byte_of_Z_eq; Z.div_mod_to_equations; lia.
  - pose proof (byte_to_Z_range a). pose proof (byte_to_Z_range b).
    pose proof (byte_to_Z_range c).
    cbn [encode].
    rewrite !sextets_cons by (Z.div_mod_to_equations; lia).
    cbn [pack]. rewrite IH. f_equal; [|f_equal; [|f_equal]];
      apply byte_of_Z_eq; Z.div_mod_to_equations; lia.
Qed.

End Base64Facts.

(** ** The blank-node stabilizer *)

Section Stabilizer.
Import JsString JsStringFacts.

Lemma nodeIdentifier_cons (c : ascii) (r : string) :
  nodeIdentifier (String c r)
  = if Ascii.eqb c SPACE then EmptyString else String c (nodeIdentifier r).
Proof.
  unfold nodeIdentifier. simpl.
  destruct (Ascii.eqb c SPACE); [done |].
  pose proof (split_nonempty SPACE r). by destruct (split SPACE r).
Qed.

(** A statement is its node identifier followed by the rest. *)
Lemma nodeIdentifier_split (element : string) :
  element = nodeIdentifier element +:+ afterNodeIdentifier element
  ∧ no_space (nodeIdentifier element) = true
  ∧ at_boundary (afterNodeIdentifier element) = true.
Proof.
  unfold afterNodeIdentifier.
  induction element as [|c r (IH1 & IH2 & IH3)]; [done |].
  rewrite nodeIdentifier_cons.
  destruct (Ascii.eqb c SPACE) eqn:E; simpl; [by rewrite E |].
  rewrite E. simpl. split_and!; [by f_equal | done | done].
Qed.

Lemma nodeIdentifier_app (t r : string) :
  no_space t = true → at_boundary r = true → nodeIdentifier (t +:+ r) = t.
Proof.
  intros Ht Hr. induction t as [|c t IH]; simpl.
  - destruct r as [|d r]; [done |].
    rewrite nodeIdentifier_cons. simpl in Hr. by rewrite Hr.
  - simpl in Ht. apply andb_prop in Ht as [Hc Ht].
    rewrite nodeIdentifier_cons. apply negb_true_iff in Hc.
    rewrite Hc. by rewrite IH.
Qed.

Lemma afterNodeIdentifier_app (t r : string) :
  no_space t = true → at_boundary r = true →
  afterNodeIdentifier (t +:+ r) = r.
Proof.
  intros Ht Hr. unfold afterNodeIdentifier.
  rewrite nodeIdentifier_app by done. apply drop_append.
Qed.

(** What [stabilize] computes, [replace] unfolded. *)
Lemma stabilize_eq (element : string) :
  stabilize element
  = (if startsWith (nodeIdentifier element) "_:c14n"
     then GetSubstitution (nodeIdentifier element) EmptyString
            (afterNodeIdentifier element)
            ("<urn:bnid:" +:+ nodeIdentifier element +:+ ">")
     else nodeIdentifier element)
    +:+ afterNodeIdentifier element.
Proof.
  destruct (nodeIdentifier_split element) as (He & _ & _).
  unfold stabilize.
  destruct (startsWith (nodeIdentifier element) "_:c14n"); [|done].
  rewrite He at 1. apply replace_prefix.
Qed.

(** What [unstabilize] computes, [replace] unfolded. *)
Lemma unstabilize_eq (element : string) :
  unstabilize element
  = (if startsWith (nodeIdentifier element) "<urn:bnid:_:c14n"
     then GetSubstitution (nodeIdentifier element) EmptyString
            (afterNodeIdentifier element)
            (substring (nodeIdentifier element)
               (Z.of_nat (String.length "<urn:bnid:"))
               (Z.of_nat (String.length (nodeIdentifier element)) - 1))
     else nodeIdentifier element)
    +:+ afterNodeIdentifier element.
Proof.
  destruct (nodeIdentifier_split element) as (He & _ & _).
  unfold unstabilize.
  destruct (startsWith (nodeIdentifier element) "<urn:bnid:_:c14n");
    [|done].
  rewrite He at 1. apply replace_prefix.
Qed.

Lemma substring_unwrap (s : string) :
  substring ("<urn:bnid:" +:+ s +:+ ">")
    (Z.of_nat (String.length "<urn:bnid:"))
    (Z.of_nat (String.length ("<urn:bnid:" +:+ s +:+ ">")) - 1)
  = s.
Proof.
  unfold substring.
  rewrite !length_append. simpl String.length.
  set (n := String.length s).
  replace (Z.min (Z.max (Z.of_nat 10) 0) (Z.of_nat (10 + (n + 1))))
    with 10 by lia.
  replace (Z.min (Z.max (Z.of_nat (10 + (n + 1)) - 1) 0)
             (Z.of_nat (10 + (n + 1))))
    with (10 + Z.of_nat n) by lia.
  replace (Z.to_nat (Z.min 10 (10 + Z.of_nat n))) with 10%nat by lia.
  replace (Z.to_nat (Z.max 10 (10 + Z.of_nat n) - Z.min 10 (10 + Z.of_nat n)))
    with n by lia.
  simpl. apply take_append.
Qed.

(** A safe blank-node statement is wrapped as the suite intends. *)
Lemma stabilize_blank (element : string) :
  startsWith (nodeIdentifier element) "_:c14n" = true →
  no_dollar (nodeIdentifier element) = true →
  stabilize element
  = ("<urn:bnid:" +:+ nodeIdentifier element +:+ ">")
    +:+ afterNodeIdentifier element.
Proof.
  intros Hb Hd. rewrite stabilize_eq, Hb.
  rewrite GetSubstitution_no_dollar; [done |].
  by rewrite !no_dollar_app, Hd.
Qed.

Lemma stabilize_other (element : string) :
  startsWith (nodeIdentifier element) "_:c14n" = false →
  stabilize element = element.
Proof. intros H. unfold stabilize. by rewrite H. Qed.

(** Unwrapping the wrapped statement gives the statement back. *)
Lemma unstabilize_wrapped (s r : string) :
  startsWith s "_:c14n" = true → no_dollar s = true →
  no_space s = true → at_boundary r = true →
  unstabilize (("<urn:bnid:" +:+ s +:+ ">") +:+ r) = s +:+ r.
Proof.
  intros Hb Hd Hs Hr.
  assert (no_space ("<urn:bnid:" +:+ s +:+ ">") = true) as Hw
    by (by rewrite !no_space_app, Hs).
  rewrite unstabilize_eq.
  rewrite nodeIdentifier_app, afterNodeIdentifier_app by done.
  assert (startsWith ("<urn:bnid:" +:+ s +:+ ">") "<urn:bnid:_:c14n" = true)
    as ->.
  { unfold startsWith in Hb.
    destruct (strip_prefix "_:c14n" s) as [t|] eqn:E; [|done].
    apply strip_prefix_Some in E. subst s.
    apply (startsWith_app "<urn:bnid:_:c14n"). }
  rewrite substring_unwrap.
  by rewrite GetSubstitution_no_dollar.
Qed.

Lemma roundTrip_statement (element : string) :
  roundTripSafe element = true →
  unstabilize (stabilize element) = element.
Proof.
  unfold roundTripSafe.
  intros [Hw Hs]%andb_prop. apply negb_true_iff in Hw.
  destruct (nodeIdentifier_split element) as (He & Hn & Ha).
  destruct (startsWith (nodeIdentifier element) "_:c14n") eqn:Hb;
    simpl in Hs.
  - rewrite stabilize_blank by done.
    rewrite unstabilize_wrapped by done. by rewrite <- He.
  - rewrite stabilize_other by done.
    unfold unstabilize. by rewrite Hw.
Qed.

(** After stabilization the text behind the node identifier is as it
    was. *)
Lemma stabilize_after (element : string) :
  roundTripSafe element = true →
  afterNodeIdentifier (stabilize element) = afterNodeIdentifier element.
Proof.
  unfold roundTripSafe.
  intros [Hw Hs]%andb_prop.
  destruct (nodeIdentifier_split element) as (He & Hn & Ha).
  destruct (startsWith (nodeIdentifier element) "_:c14n") eqn:Hb;
    simpl in Hs.
  - rewrite stabilize_blank by done.
    apply afterNodeIdentifier_app; [|done].
    by rewrite !no_space_app, Hn.
  - by rewrite stabilize_other.
Qed.

End Stabilizer.

(** C6, as the code has it: on every list of statements none of whose node
    identifiers is already of the wrapped form [<urn:bnid:_:c14n...] and
    whose blank-node identifiers hold no dollar sign, stabilizing and then
    unstabilizing gives the list back; each transform keeps the number and
    the order of the statements (it acts statement by statement) and leaves
    the text behind the node identifier as it was. *)
Theorem stabilizer_roundtrip (l : list string) :
  Forall (λ element, roundTripSafe element = true) l →
  transformedDocumentStatements (transformedInputDocumentStatements l) = l
  ∧ List.length (transformedInputDocumentStatements l) = List.length l
  ∧ List.length (transformedDocumentStatements l) = List.length l
  ∧ (∀ i, transformedInputDocumentStatements l !! i = stabilize <$> l !! i)
  ∧ (∀ i, transformedDocumentStatements l !! i = unstabilize <$> l !! i)
  ∧ Forall (λ element,
              afterNodeIdentifier (stabilize element)
              = afterNodeIdentifier element
              ∧ afterNodeIdentifier (unstabilize (stabilize element))
                = afterNodeIdentifier element) l.
Proof.
  intros Hsafe.
  unfold transformedDocumentStatements, transformedInputDocumentStatements.
  split_and!.
  - induction Hsafe as [|e l He _ IH]; simpl; [done |].
    by rewrite roundTrip_statement, IH.
  - apply length_map.
  - apply length_map.
  - intros i. apply list_lookup_fmap.
  - intros i. apply list_lookup_fmap.
  - eapply Forall_impl; [exact Hsafe |]. simpl. intros e He.
    split; [by apply stabilize_after |].
    by rewrite roundTrip_statement.
Qed.

(** ** The error monad *)

Lemma result_bind_Ok {A B} (a : A) (f : A → result B) : (Ok a ≫= f) = f a.
Proof. done. Qed.

Lemma result_bind_Err {A B} (e : thrown) (f : A → result B) :
  (Err e ≫= f) = Err e.
Proof. done. Qed.

(** ** Derivation *)

Section Derivation.
Context {jsonld_api : jsonld.api} {bbs_api : bbs.api}
        {Buffer_api : Buffer.api} {jsigs_api : jsigs.api}
        {issuer_api : BbsBlsSignature2020.api}.

Lemma length_proofRevealIndicies (n : nat) :
  List.length (proofRevealIndicies n) = n.
Proof. unfold proofRevealIndicies. by rewrite length_map, length_seq. Qed.

Lemma length_documentRevealIndicies (t r : list string) (n : nat) :
  List.length (documentRevealIndicies t r n) = List.length r.
Proof. unfold documentRevealIndicies. by rewrite length_map. Qed.

(** The comparison of line 139 never finds a difference. *)
Lemma mismatch_check_passes (t r : list string) (n : nat) :
  negb (List.length (documentRevealIndicies t r n) =? List.length r)%nat
  = false.
Proof. by rewrite length_documentRevealIndicies, Nat.eqb_refl. Qed.

(** [deriveProof] step by step: the type check, the signature, the signed
    statements, the revealed subgraph, the nonce, the primitive, and the
    assembled document.  The mismatch check of lines 138-143 has dropped
    out: it cannot fail. *)
Lemma deriveProof_steps (this : Suite.t) (options : DeriveProofOptions.t)
    (g : rng) :
  deriveProof this options g
  = let proof := DeriveProofOptions.proof options in
    if negb (strict_eq_string (get proof "type") "BbsBlsSignature2020")
    then (Err (TypeError incompatibleProofMessage), g)
    else
      match Buffer.from_base64 (get proof "signature") with
      | Err e => (Err e, g)
      | Ok signature =>
      match issuerStatements this options with
      | Err e => (Err e, g)
      | Ok (proofStatements, documentStatements) =>
      match revealedSubgraph this options documentStatements with
      | Err e => (Err e, g)
      | Ok (revealDocumentResult, revealDocumentStatements) =>
      let revealIndicies :=
        revealIndicies proofStatements documentStatements
          revealDocumentStatements in
      match resolveNonce (DeriveProofOptions.nonce options) g with
      | (Err e, g') => (Err e, g')
      | (Ok nonce, g') =>
      match bbs.blsCreateProof
              {| bbs.signature := signature;
                 bbs.publicKey := publicKeyBuffer (Suite.key this);
                 bbs.messages := proofStatements ++ documentStatements;
                 bbs.nonce := nonce;
                 bbs.revealed := revealIndicies |} with
      | Err e => (Err e, g')
      | Ok outputProof =>
          (Ok (derivedDocument this proof revealDocumentResult
                 revealIndicies
                 (List.length (proofStatements ++ documentStatements))
                 nonce outputProof), g')
      end end end end end.
Proof.
  unfold deriveProof, issuerStatements, revealedSubgraph, resolveNonce,
    revealIndicies, derivedDocument.
  cbv zeta.
  destruct (negb (strict_eq_string _ _)); [done |].
  unfold mbind, M_bind, lift, result_bind, mret, M_ret, result_ret.
  destruct (Buffer.from_base64 _) as [signature|]; [|done].
  destruct (BbsBlsSignature2020.createVerifyDocumentData _ _ _)
    as [documentStatements|]; [|done].
  destruct (BbsBlsSignature2020.createVerifyProofData _ _ _)
    as [proofStatements|]; [|done].
  destruct (jsonld.fromRDF _) as [compact|]; [|done].
  destruct (jsonld.frame _ _ _) as [revealDocumentResult|]; [|done].
  destruct (BbsBlsSignature2020.createVerifyDocumentData _ _ _)
    as [revealDocumentStatements|]; [|done].
  rewrite mismatch_check_passes.
  destruct (negb (truthy _)); simpl.
  - destruct (bbs.blsCreateProof _); done.
  - destruct (bbs.blsCreateProof _); done.
Qed.

(** Every run of [deriveProof] that returns went through these steps. *)
Lemma deriveProof_Ok (this : Suite.t) (options : DeriveProofOptions.t)
    (g g' : rng) (derived : obj) :
  deriveProof this options g = (Ok derived, g') →
  ∃ signature documentStatements proofStatements revealDocumentResult
    revealDocumentStatements nonce outputProof,
    strict_eq_string (get (DeriveProofOptions.proof options) "type")
      "BbsBlsSignature2020" = true
    ∧ Buffer.from_base64 (get (DeriveProofOptions.proof options) "signature")
      = Ok signature
    ∧ issuerStatements this options = Ok (proofStatements, documentStatements)
    ∧ revealedSubgraph this options documentStatements
      = Ok (revealDocumentResult, revealDocumentStatements)
    ∧ resolveNonce (DeriveProofOptions.nonce options) g = (Ok nonce, g')
    ∧ bbs.blsCreateProof
        {| bbs.signature := signature;
           bbs.publicKey := publicKeyBuffer (Suite.key this);
           bbs.messages := proofStatements ++ documentStatements;
           bbs.nonce := nonce;
           bbs.revealed :=
             revealIndicies proofStatements documentStatements
               revealDocumentStatements |}
      = Ok outputProof
    ∧ derived
      = derivedDocument this (DeriveProofOptions.proof options)
          revealDocumentResult
          (revealIndicies proofStatements documentStatements
             revealDocumentStatements)
          (List.length (proofStatements ++ documentStatements))
          nonce outputProof.
Proof.
  rewrite deriveProof_steps. cbv zeta.
  destruct (strict_eq_string _ _) eqn:Et; [|done]. simpl.
  destruct (Buffer.from_base64 _) as [signature|] eqn:Es; [|done].
  destruct (issuerStatements _ _) as [[ps ds]|] eqn:Ei; [|done].
  destruct (revealedSubgraph _ _ _) as [[rd rs]|] eqn:Er; [|done].
  destruct (resolveNonce _ _) as [[nonce|] g1] eqn:En; [|done].
  destruct (bbs.blsCreateProof _) as [outputProof|] eqn:Ep; [|done].
  intros [= <- <-].
  by exists signature, ds, ps, rd, rs, nonce, outputProof.
Qed.

(** Reading the derived proof. *)
Lemma derivedProof_derivedDocument (this : Suite.t) (proof : obj)
    (revealDocumentResult : value) (indices : list Z) (total : nat)
    (nonce : value) (outputProof : list byte) :
  let derived :=
    derivedDocument this proof revealDocumentResult indices total nonce
      outputProof in
  get (derivedProof derived) "nonce" = nonce
  ∧ get (derivedProof derived) "totalStatements" = VNum (Z.of_nat total)
  ∧ get (derivedProof derived) "revealStatements" = VArr (VNum <$> indices)
  ∧ get (derivedProof derived) "proof"
    = VStr (Buffer.toString_base64 outputProof)
  ∧ delete "proof" derived = delete "proof" (spread revealDocumentResult).
Proof.
  unfold derivedProof, derivedDocument, get. cbv zeta.
  rewrite lookup_insert_eq. simpl.
  split_and!; try by simplify_map_eq.
  by rewrite delete_insert_eq.
Qed.

Lemma resolveNonce_truthy (nonce : value) (g : rng) :
  truthy nonce = true → resolveNonce nonce g = (Ok nonce, g).
Proof. intros Hn. unfold resolveNonce. by rewrite Hn. Qed.

Lemma resolveNonce_falsy (nonce : value) (g : rng) :
  truthy nonce = false →
  resolveNonce nonce g
  = (Ok (VStr (Buffer.toString_base64 (randomBytes 50 g).1)),
     (randomBytes 50 g).2).
Proof. intros Hn. unfold resolveNonce. by rewrite Hn. Qed.

Lemma length_randomBytes (n : nat) (g : rng) :
  List.length (randomBytes n g).1 = n.
Proof. unfold randomBytes. simpl. by rewrite length_map, length_seq. Qed.

End Derivation.

(** ** Reveal indices and the nonce *)

Section DerivationClaims.
Context {jsonld_api : jsonld.api} {bbs_api : bbs.api}
        {Buffer_api : Buffer.api} {jsigs_api : jsigs.api}
        {issuer_api : BbsBlsSignature2020.api}.

(** A revealed statement that is not among the stabilized document
    statements still gets an index: the one before the first document
    statement. *)
Lemma documentRevealIndicies_absent (t r : list string) (n i : nat)
    (key : string) :
  r !! i = Some key → key ∉ t →
  documentRevealIndicies t r n !! i = Some (Z.of_nat n - 1).
Proof.
  intros Hi Hk. unfold documentRevealIndicies.
  rewrite list_lookup_fmap, Hi. simpl.
  apply JsStringFacts.indexOf_absent in Hk. rewrite Hk. f_equal. lia.
Qed.

(** A revealed statement that is among them gets its position, offset by
    the number of proof statements. *)
Lemma documentRevealIndicies_present (t r : list string) (n i : nat)
    (key : string) :
  r !! i = Some key → key ∈ t →
  ∃ p, t !! p = Some key
       ∧ documentRevealIndicies t r n !! i = Some (Z.of_nat (n + p)).
Proof.
  intros Hi Hk. unfold documentRevealIndicies.
  rewrite list_lookup_fmap, Hi. simpl.
  destruct (JsStringFacts.indexOf_present _ _ Hk) as [H0 Hp].
  exists (Z.to_nat (JsString.indexOf t key)). split; [done |]. f_equal. lia.
Qed.

(** C4: a derivation that returns lists, in [revealStatements], first the
    indices [0 .. numberOfProofStatements-1] of all proof statements and
    then one index per statement of the canonicalized revealed subgraph,
    so its length is the number of proof statements plus the number of
    revealed statements. *)
Theorem deriveProof_revealStatements (this : Suite.t)
    (options : DeriveProofOptions.t) (g g' : rng) (derived : obj)
    (proofStatements documentStatements revealDocumentStatements
       : list string)
    (revealDocumentResult : value) :
  deriveProof this options g = (Ok derived, g') →
  issuerStatements this options = Ok (proofStatements, documentStatements) →
  revealedSubgraph this options documentStatements
  = Ok (revealDocumentResult, revealDocumentStatements) →
  ∃ indices,
    get (derivedProof derived) "revealStatements" = VArr (VNum <$> indices)
    ∧ take (List.length proofStatements) indices
      = Z.of_nat <$> seq 0 (List.length proofStatements)
    ∧ (∀ i, (i < List.length proofStatements)%nat → Z.of_nat i ∈ indices)
    ∧ List.length indices
      = (List.length proofStatements
         + List.length revealDocumentStatements)%nat.
Proof.
  intros Hd Hi Hr.
  apply deriveProof_Ok in Hd
    as (sg & ds & ps & rd & rs & nonce & op & _ & _ & Hi' & Hr' & _ & _ & ->).
  rewrite Hi in Hi'. injection Hi' as <- <-.
  rewrite Hr in Hr'. injection Hr' as <- <-.
  exists (revealIndicies proofStatements documentStatements
            revealDocumentStatements).
  split_and!.
  - apply derivedProof_derivedDocument.
  - unfold revealIndicies.
    rewrite take_app_length'; [done |].
    symmetry. apply length_proofRevealIndicies.
  - intros i Hlt. unfold revealIndicies, proofRevealIndicies.
    apply elem_of_app. left. apply list_elem_of_fmap.
    exists i. split; [done |]. apply elem_of_seq. lia.
  - unfold revealIndicies.
    by rewrite length_app, length_proofRevealIndicies,
      length_documentRevealIndicies.
Qed.

(** C5, as the code has it: a supplied nonce that is truthy (any non-empty
    string) is the derived proof's [nonce], verbatim, and no randomness is
    drawn; without a nonce the derived proof's [nonce] is the base64 text
    of the next 50 bytes of the random source. *)
Theorem deriveProof_nonce (this : Suite.t) (options : DeriveProofOptions.t)
    (g g' : rng) (derived : obj) :
  deriveProof this options g = (Ok derived, g') →
  (truthy (DeriveProofOptions.nonce options) = true →
   get (derivedProof derived) "nonce" = DeriveProofOptions.nonce options
   ∧ g' = g)
  ∧ (DeriveProofOptions.nonce options = VUndefined →
     get (derivedProof derived) "nonce"
     = VStr (Buffer.toString_base64 (randomBytes 50 g).1)
     ∧ List.length (randomBytes 50 g).1 = 50%nat
     ∧ g' = (randomBytes 50 g).2).
Proof.
  intros Hd.
  apply deriveProof_Ok in Hd
    as (sg & ds & ps & rd & rs & nonce & op & _ & _ & _ & _ & Hn & _ & ->).
  destruct (derivedProof_derivedDocument this
              (DeriveProofOptions.proof options) rd
              (revealIndicies ps ds rs) (List.length (ps ++ ds)) nonce op)
    as (-> & _).
  split.
  - intros Ht. rewrite resolveNonce_truthy in Hn by done.
    by injection Hn as <- <-.
  - intros Hu. rewrite resolveNonce_falsy in Hn by (by rewrite Hu).
    assert (nonce = VStr (Buffer.toString_base64 (randomBytes 50 g).1)
            ∧ g' = (randomBytes 50 g).2) as [-> ->]
      by (split; congruence).
    split_and!; [done | | done].
    apply length_randomBytes.
Qed.

(** The base64 text of at least one byte is not empty. *)
Lemma toString_base64_nonempty (bs : list byte) :
  bs ≠ [] → truthy (VStr (Buffer.toString_base64 bs)) = true.
Proof. destruct bs as [|a [|b [|c r]]]; done. Qed.

(** C10: a supplied nonce that is falsy (the empty string, for one) is not
    used.  The call behaves exactly as the call without a nonce, and when
    it returns, the derived proof's [nonce] is the base64 text of 50 fresh
    random bytes, which differs from the supplied value. *)
Theorem deriveProof_falsy_nonce (this : Suite.t)
    (options : DeriveProofOptions.t) (g : rng) :
  truthy (DeriveProofOptions.nonce options) = false →
  deriveProof this options g
  = deriveProof this
      {| DeriveProofOptions.document := DeriveProofOptions.document options;
         DeriveProofOptions.proof := DeriveProofOptions.proof options;
         DeriveProofOptions.revealDocument :=
           DeriveProofOptions.revealDocument options;
         DeriveProofOptions.documentLoader :=
           DeriveProofOptions.documentLoader options;
         DeriveProofOptions.expansionMap :=
           DeriveProofOptions.expansionMap options;
         DeriveProofOptions.compactProof :=
           DeriveProofOptions.compactProof options;
         DeriveProofOptions.nonce := VUndefined |} g
  ∧ ∀ derived g',
      deriveProof this options g = (Ok derived, g') →
      get (derivedProof derived) "nonce"
      = VStr (Buffer.toString_base64 (randomBytes 50 g).1)
      ∧ List.length (randomBytes 50 g).1 = 50%nat
      ∧ get (derivedProof derived) "nonce" ≠ DeriveProofOptions.nonce options
      ∧ consumed g' = (consumed g + 50)%nat.
Proof.
  intros Hf. split.
  - rewrite !deriveProof_steps.
    unfold issuerStatements, revealedSubgraph. simpl.
    by rewrite !resolveNonce_falsy.
  - intros derived g' Hd.
    apply deriveProof_Ok in Hd
      as (sg & ds & ps & rd & rs & nonce & op & _ & _ & _ & _ & Hn & _ & ->).
    destruct (derivedProof_derivedDocument this
                (DeriveProofOptions.proof options) rd
                (revealIndicies ps ds rs) (List.length (ps ++ ds)) nonce op)
      as (-> & _).
    rewrite resolveNonce_falsy in Hn by done.
    assert (nonce = VStr (Buffer.toString_base64 (randomBytes 50 g).1)
            ∧ g' = (randomBytes 50 g).2) as [-> ->]
      by (split; congruence).
    split_and!; [done | apply length_randomBytes | | done].
    intros Heq. rewrite <- Heq in Hf.
    rewrite toString_base64_nonempty in Hf; [done |].
    intros Hnil. pose proof (length_randomBytes 50 g) as Hl.
    by rewrite Hnil in Hl.
Qed.

End DerivationClaims.

(** ** Verification *)

Section Verification.
Context {jsonld_api : jsonld.api} {bbs_api : bbs.api}
        {Buffer_api : Buffer.api} {jsigs_api : jsigs.api}.

(** The [try] block step by step. *)
Lemma verifyProof_try_steps (this : Suite.t)
    (options : VerifyProofOptions.t) :
  verifyProof_try this options
  = (statements ← statementsToVerify this options;
     verificationMethod ←
       getVerificationMethod (VerifyProofOptions.proof options)
         (VerifyProofOptions.documentLoader options);
     verified ← cryptographicCheck this options statements;
     validation ← purposeCheck this options verificationMethod;
     if negb (Purpose.valid validation) then Err (Purpose.error validation)
     else Ok verified).
Proof.
  unfold verifyProof_try, statementsToVerify, cryptographicCheck,
    purposeCheck, verifyRequest.
  unfold mbind, result_bind, mret, result_ret. cbv zeta.
  destruct (createVerifyProofData this (VObj (VerifyProofOptions.proof _)) _);
    [|done].
  destruct (createVerifyProofData this (VObj (VerifyProofOptions.document _)) _);
    [|done].
  destruct (getVerificationMethod _ _); [|done].
  by destruct (Buffer.from_base64 _).
Qed.

(** Whatever the [try] block throws comes back as the cause. *)
Lemma verifyProof_caught (this : Suite.t) (options : VerifyProofOptions.t)
    (e : thrown) :
  verifyProof_try this options = Err e →
  verifyProof this options
  = Ok {| bbs.verified := false; bbs.error := Some e |}.
Proof. intros He. unfold verifyProof. by rewrite He. Qed.

Lemma verifyProof_returned (this : Suite.t) (options : VerifyProofOptions.t)
    (v : bbs.VerifyProofResult) :
  verifyProof_try this options = Ok v → verifyProof this options = Ok v.
Proof. intros He. unfold verifyProof. by rewrite He. Qed.

(** C3: [verifyProof] always returns a result envelope.  When any step of
    its body throws (canonicalization of malformed input, the
    verification-method resolution, decoding the proof, the primitive, the
    purpose validator, a failed purpose check), the envelope is
    [{ verified: false, error }] with what was thrown as the cause;
    otherwise it is the primitive's verdict. *)
Theorem verifyProof_never_throws (this : Suite.t)
    (options : VerifyProofOptions.t) :
  ∃ envelope,
    verifyProof this options = Ok envelope
    ∧ (∀ e, verifyProof_try this options = Err e →
            envelope = {| bbs.verified := false; bbs.error := Some e |})
    ∧ (∀ e, statementsToVerify this options = Err e →
            envelope = {| bbs.verified := false; bbs.error := Some e |})
    ∧ (∀ statements e,
         statementsToVerify this options = Ok statements →
         getVerificationMethod (VerifyProofOptions.proof options)
           (VerifyProofOptions.documentLoader options) = Err e →
         envelope = {| bbs.verified := false; bbs.error := Some e |})
    ∧ (∀ statements verificationMethod e,
         statementsToVerify this options = Ok statements →
         getVerificationMethod (VerifyProofOptions.proof options)
           (VerifyProofOptions.documentLoader options)
         = Ok verificationMethod →
         cryptographicCheck this options statements = Err e →
         envelope = {| bbs.verified := false; bbs.error := Some e |})
    ∧ (∀ statements verificationMethod verified e,
         statementsToVerify this options = Ok statements →
         getVerificationMethod (VerifyProofOptions.proof options)
           (VerifyProofOptions.documentLoader options)
         = Ok verificationMethod →
         cryptographicCheck this options statements = Ok verified →
         purposeCheck this options verificationMethod = Err e →
         envelope = {| bbs.verified := false; bbs.error := Some e |}).
Proof.
  destruct (verifyProof_try this options) as [v|e0] eqn:Et.
  - exists v. split; [by apply verifyProof_returned |].
    rewrite verifyProof_try_steps in Et.
    unfold mbind, result_bind in Et.
    split_and!.
    + done.
    + intros e He. by rewrite He in Et.
    + intros s e Hs He. by rewrite Hs, He in Et.
    + intros s m e Hs Hm He. by rewrite Hs, Hm, He in Et.
    + intros s m c e Hs Hm Hc He. by rewrite Hs, Hm, Hc, He in Et.
  - exists {| bbs.verified := false; bbs.error := Some e0 |}.
    split; [by apply verifyProof_caught |].
    rewrite verifyProof_try_steps in Et.
    unfold mbind, result_bind in Et.
    split_and!.
    + by intros e [= ->].
    + intros e He. rewrite He in Et. by injection Et as ->.
    + intros s e Hs He. rewrite Hs, He in Et. by injection Et as ->.
    + intros s m e Hs Hm He. rewrite Hs, Hm, He in Et.
      by injection Et as ->.
    + intros s m c e Hs Hm Hc He. rewrite Hs, Hm, Hc, He in Et.
      by injection Et as ->.
Qed.

(** *** The verification method *)

Lemma getVerificationMethod_missing (proof : obj)
    (documentLoader : DocumentLoader) (reference : value) :
  verificationMethodReference proof = Ok reference →
  truthy reference = false →
  getVerificationMethod proof documentLoader
  = Err (Error noVerificationMethodMessage).
Proof.
  intros Hr Ht. unfold getVerificationMethod.
  rewrite Hr. simpl. by rewrite Ht.
Qed.

Lemma getVerificationMethod_notFound (proof : obj)
    (documentLoader : DocumentLoader) (reference result : value) :
  verificationMethodReference proof = Ok reference →
  truthy reference = true →
  frameVerificationMethod reference documentLoader = Ok result →
  truthy result = false →
  getVerificationMethod proof documentLoader
  = Err (notFoundError reference).
Proof.
  intros Hr Ht Hf Hn. unfold getVerificationMethod.
  rewrite Hr. simpl. rewrite Ht. simpl. rewrite Hf. simpl. by rewrite Hn.
Qed.

Lemma getVerificationMethod_revoked (proof : obj)
    (documentLoader : DocumentLoader) (reference result marker : value) :
  verificationMethodReference proof = Ok reference →
  truthy reference = true →
  frameVerificationMethod reference documentLoader = Ok result →
  get_property result "revoked" = Ok marker →
  is_defined marker = true →
  getVerificationMethod proof documentLoader = Err (Error revokedMessage).
Proof.
  intros Hr Ht Hf Hp Hm. unfold getVerificationMethod.
  rewrite Hr. simpl. rewrite Ht. simpl. rewrite Hf. simpl.
  destruct (truthy result) eqn:Hres; simpl.
  - rewrite Hp. simpl. by rewrite Hm.
  - destruct result as [| |b|n|s|l|o]; simpl in Hres; try done.
    + by injection Hp as <-.
    + by injection Hp as <-.
    + destruct s; [|done]. by injection Hp as <-.
Qed.

(** The resolution case by case.  When the resolved verification-method
    document carries a revocation marker, the resolution fails with the
    revocation error and [verifyProof] returns [verified: false], with that
    error as cause once the statements were recomputed, whatever the
    primitive would answer; a reference that is read and is falsy (the
    property is absent or empty, or an embedded object has no identifier)
    makes the resolution fail with the missing-reference error; and a
    resolution that yields nothing makes it fail with the not-found
    error. *)
Theorem verifyProof_revoked (this : Suite.t)
    (options : VerifyProofOptions.t) :
  let proof := VerifyProofOptions.proof options in
  let documentLoader := VerifyProofOptions.documentLoader options in
  (∀ reference result marker,
     verificationMethodReference proof = Ok reference →
     truthy reference = true →
     frameVerificationMethod reference documentLoader = Ok result →
     get_property result "revoked" = Ok marker →
     is_defined marker = true →
     getVerificationMethod proof documentLoader = Err (Error revokedMessage)
     ∧ (∃ cause,
          verifyProof this options
          = Ok {| bbs.verified := false; bbs.error := Some cause |})
     ∧ (∀ statements,
          statementsToVerify this options = Ok statements →
          verifyProof this options
          = Ok {| bbs.verified := false;
                  bbs.error := Some (Error revokedMessage) |}))
  ∧ (∀ reference,
       verificationMethodReference proof = Ok reference →
       truthy reference = false →
       getVerificationMethod proof documentLoader
       = Err (Error noVerificationMethodMessage))
  ∧ (proof !! "verificationMethod" = None →
     getVerificationMethod proof documentLoader
     = Err (Error noVerificationMethodMessage))
  ∧ (∀ reference result,
       verificationMethodReference proof = Ok reference →
       truthy reference = true →
       frameVerificationMethod reference documentLoader = Ok result →
       truthy result = false →
       getVerificationMethod proof documentLoader
       = Err (notFoundError reference)).
Proof.
  cbv zeta. split_and!.
  - intros reference result marker Hr Ht Hf Hp Hm.
    pose proof (getVerificationMethod_revoked _ _ _ _ _ Hr Ht Hf Hp Hm)
      as Hrevoked.
    assert (∀ statements,
              statementsToVerify this options = Ok statements →
              verifyProof this options
              = Ok {| bbs.verified := false;
                      bbs.error := Some (Error revokedMessage) |}) as Hreach.
    { intros statements Hs. apply verifyProof_caught.
      by rewrite verifyProof_try_steps, Hs, result_bind_Ok, Hrevoked. }
    split_and!; [done | | done].
    destruct (statementsToVerify this options) as [statements|e] eqn:Hs.
    + eexists. by apply (Hreach statements).
    + exists e. apply verifyProof_caught.
      by rewrite verifyProof_try_steps, Hs.
  - intros reference. apply getVerificationMethod_missing.
  - intros Hnone.
    apply (getVerificationMethod_missing _ _ VUndefined); [|done].
    unfold verificationMethodReference, get. by rewrite Hnone.
  - intros reference result. apply getVerificationMethod_notFound.
Qed.

(** *** The proof purpose *)

(** C8: when the purpose validator reports invalid, the result is
    [verified: false] with the validator's error as cause, whatever the
    primitive answered; and a result with [verified: true] is the
    primitive's own verdict, given under a purpose the validator
    accepted. *)
Theorem verifyProof_purpose (this : Suite.t)
    (options : VerifyProofOptions.t) :
  (∀ statements verificationMethod verified validation,
     statementsToVerify this options = Ok statements →
     getVerificationMethod (VerifyProofOptions.proof options)
       (VerifyProofOptions.documentLoader options) = Ok verificationMethod →
     cryptographicCheck this options statements = Ok verified →
     purposeCheck this options verificationMethod = Ok validation →
     Purpose.valid validation = false →
     verifyProof this options
     = Ok {| bbs.verified := false;
             bbs.error := Some (Purpose.error validation) |})
  ∧ (∀ envelope,
       verifyProof this options = Ok envelope →
       bbs.verified envelope = true →
       ∃ statements verificationMethod validation,
         statementsToVerify this options = Ok statements
         ∧ getVerificationMethod (VerifyProofOptions.proof options)
             (VerifyProofOptions.documentLoader options)
           = Ok verificationMethod
         ∧ cryptographicCheck this options statements = Ok envelope
         ∧ purposeCheck this options verificationMethod = Ok validation
         ∧ Purpose.valid validation = true).
Proof.
  split.
  - intros statements verificationMethod verified validation
      Hs Hm Hc Hp Hv.
    apply verifyProof_caught.
    rewrite verifyProof_try_steps, Hs. simpl. rewrite Hm. simpl.
    rewrite Hc. simpl. rewrite Hp. simpl. by rewrite Hv.
  - intros envelope He Hv.
    unfold verifyProof, try_catch in He.
    rewrite verifyProof_try_steps in He.
    unfold mbind, result_bind, mret, result_ret in He.
    destruct (statementsToVerify this options) as [statements|] eqn:Hs;
      [|by injection He as <-].
    destruct (getVerificationMethod _ _) as [verificationMethod|] eqn:Hm;
      [|by injection He as <-].
    destruct (cryptographicCheck _ _ _) as [verified|] eqn:Hc;
      [|by injection He as <-].
    destruct (purposeCheck _ _ _) as [validation|] eqn:Hp;
      [|by injection He as <-].
    destruct (Purpose.valid validation) eqn:Hvalid; simpl in He;
      [|by injection He as <-].
    injection He as ->.
    by exists statements, verificationMethod, validation.
Qed.

(** *** The two statement routines *)

(** C9: on the verify path the document statements come from the
    proof-statement routine, which removes [totalStatements],
    [revealStatements], [nonce] and [proof] from a copy and canonicalizes
    with [skipExpansion: false]; for a document with none of the four
    fields it gives the statements of the document routine, the
    canonicalizer reading an absent [skipExpansion] as [false] (its
    documented default). *)
Theorem createVerifyProofData_on_document (this : Suite.t)
    (options : VerifyProofOptions.t) (document : obj)
    (dataOptions : DataOptions.t) :
  (∀ input algorithm format documentLoader expansionMap useNative,
     jsonld.canonize input
       {| jsonld.algorithm := algorithm; jsonld.format := format;
          jsonld.documentLoader := documentLoader;
          jsonld.expansionMap := expansionMap;
          jsonld.skipExpansion := None; jsonld.useNative := useNative |}
     = jsonld.canonize input
         {| jsonld.algorithm := algorithm; jsonld.format := format;
            jsonld.documentLoader := documentLoader;
            jsonld.expansionMap := expansionMap;
            jsonld.skipExpansion := Some false;
            jsonld.useNative := useNative |}) →
  verifyProof_try this options
  = (let verifyOptions :=
       {| DataOptions.documentLoader :=
            VerifyProofOptions.documentLoader options;
          DataOptions.expansionMap :=
            VerifyProofOptions.expansionMap options;
          DataOptions.compactProof := VUndefined |} in
     proofStatements ←
       createVerifyProofData this (VObj (VerifyProofOptions.proof options))
         verifyOptions;
     documentStatements ←
       createVerifyProofData this
         (VObj (VerifyProofOptions.document options)) verifyOptions;
     verificationMethod ←
       getVerificationMethod (VerifyProofOptions.proof options)
         (VerifyProofOptions.documentLoader options);
     verified ←
       cryptographicCheck this options
         (proofStatements
          ++ transformedDocumentStatements documentStatements);
     validation ← purposeCheck this options verificationMethod;
     if negb (Purpose.valid validation) then Err (Purpose.error validation)
     else Ok verified)
  ∧ createVerifyProofData this (VObj document) dataOptions
    = (c14n ←
         jsonld.canonize
           (VObj (delete "proof"
                    (delete "nonce"
                       (delete "revealStatements"
                          (delete "totalStatements" document)))))
           {| jsonld.algorithm := "URDNA2015";
              jsonld.format := "application/n-quads";
              jsonld.documentLoader := DataOptions.documentLoader dataOptions;
              jsonld.expansionMap := DataOptions.expansionMap dataOptions;
              jsonld.skipExpansion := Some false;
              jsonld.useNative := Suite.useNativeCanonize this |};
       mret (statementsOf c14n))
  ∧ (document !! "totalStatements" = None →
     document !! "revealStatements" = None →
     document !! "nonce" = None →
     document !! "proof" = None →
     createVerifyProofData this (VObj document) dataOptions
     = createVerifyDocumentData this (VObj document) dataOptions).
Proof.
  intros Hdefault. split_and!.
  - rewrite verifyProof_try_steps. unfold statementsToVerify. cbv zeta.
    unfold mbind, result_bind, mret, result_ret.
    destruct (createVerifyProofData this
                (VObj (VerifyProofOptions.proof options)) _); [|done].
    by destruct (createVerifyProofData this
                   (VObj (VerifyProofOptions.document options)) _).
  - done.
  - intros H1 H2 H3 H4.
    unfold createVerifyProofData, createVerifyDocumentData, canonizeProof,
      canonize. simpl.
    rewrite (delete_id _ _ H1), (delete_id _ _ H2), (delete_id _ _ H3),
      (delete_id _ _ H4).
    by rewrite Hdefault.
Qed.

End Verification.


(** ** The concrete world, run *)

Section Examples.
#[local] Existing Instances World.jsonld_api World.bbs_api
  World.Buffer_api World.jsigs_api World.issuer_api.

Lemma World_issuerStatements (revoked : bool) (lines : list string)
    (nonce : value) :
  issuerStatements World.suite (World.deriveOptions revoked lines nonce)
  = Ok (World.proofStatements, World.documentStatements).
Proof. vm_compute; reflexivity. Qed.

(** C1: a reveal document that asks for a statement the signed document
    does not have is not rejected.  The signed document has three
    statements, none of them the e-mail statement the framed reveal document
    consists of, yet [deriveProof] returns, and lists for that statement
    the index 1 of the last proof statement. *)
Theorem deriveProof_absent_statement :
  let options := World.deriveOptions false [World.email] (VStr "abc") in
  issuerStatements World.suite options
  = Ok (World.proofStatements, World.documentStatements)
  ∧ revealedSubgraph World.suite options World.documentStatements
    = Ok (World.reveal [World.email], [World.email])
  ∧ (World.email
     ∉ transformedInputDocumentStatements World.documentStatements)
  ∧ deriveProof World.suite options World.zeros
    = (Ok (World.derived [World.email] [0; 1; 1] (VStr "abc")), World.zeros)
  ∧ get (derivedProof (World.derived [World.email] [0; 1; 1] (VStr "abc")))
      "revealStatements"
    = VArr [VNum 0; VNum 1; VNum 1].
Proof.
  cbv zeta. split_and!.
  - vm_compute; reflexivity.
  - vm_compute; reflexivity.
  - apply JsStringFacts.indexOf_absent. vm_compute; reflexivity.
  - vm_compute; reflexivity.
  - vm_compute; reflexivity.
Qed.

(** The claim C5 fails for the empty string: it is a supplied nonce, and
    the derived proof carries another one. *)
Lemma deriveProof_empty_nonce_replaced :
  World.derive false [World.givenName] (VStr EmptyString)
  = (Ok (World.derived [World.givenName] [0; 1; 3] World.zeroNonce),
     (randomBytes 50 World.zeros).2)
  ∧ get (derivedProof
           (World.derived [World.givenName] [0; 1; 3] World.zeroNonce))
      "nonce"
    ≠ VStr EmptyString.
Proof.
  split; [vm_compute; reflexivity |]. vm_compute. discriminate.
Qed.

(** The claim C6 fails for a statement whose subject is an identifier of
    the wrapped form: stabilizing leaves it alone, unstabilizing unwraps
    it. *)
Lemma stabilizer_roundtrip_wrapped :
  transformedDocumentStatements
    (transformedInputDocumentStatements [World.wrapped])
  = ["_:c14n0 <http://schema.org/name> <did:example:Doe> ."]
  ∧ transformedDocumentStatements
      (transformedInputDocumentStatements [World.wrapped])
    ≠ [World.wrapped].
Proof. split; [vm_compute; reflexivity |]. vm_compute. discriminate. Qed.

(** A dollar sign in a blank-node identifier is read by [replace] as a
    substitution pattern. *)
Lemma stabilizer_roundtrip_dollar :
  unstabilize (stabilize "_:c14n$$ <http://schema.org/name> <did:example:Doe> .")
  = "_:c14n$ <http://schema.org/name> <did:example:Doe> .".
Proof. vm_compute; reflexivity. Qed.

Lemma stabilizer_roundtrip_witness :
  Forall (λ element, roundTripSafe element = true)
    [World.address; World.familyName]
  ∧ transformedDocumentStatements
      (transformedInputDocumentStatements
         [World.address; World.familyName])
    = [World.address; World.familyName].
Proof.
  assert (Forall (λ element, roundTripSafe element = true)
            [World.address; World.familyName]) as Hsafe
    by (repeat constructor).
  split; [exact Hsafe |].
  exact (proj1 (stabilizer_roundtrip _ Hsafe)).
Defined.

Lemma deriveProof_revealStatements_witness :
  let options := World.deriveOptions false [World.givenName] (VStr "abc") in
  let derived := World.derived [World.givenName] [0; 1; 3] (VStr "abc") in
  (deriveProof World.suite options World.zeros = (Ok derived, World.zeros)
   ∧ issuerStatements World.suite options
     = Ok (World.proofStatements, World.documentStatements)
   ∧ revealedSubgraph World.suite options World.documentStatements
     = Ok (World.reveal [World.givenName], [World.givenName]))
  ∧ ∃ indices,
      get (derivedProof derived) "revealStatements" = VArr (VNum <$> indices)
      ∧ take (List.length World.proofStatements) indices
        = Z.of_nat <$> seq 0 (List.length World.proofStatements)
      ∧ (∀ i, (i < List.length World.proofStatements)%nat →
              Z.of_nat i ∈ indices)
      ∧ List.length indices
        = (List.length World.proofStatements
           + List.length [World.givenName])%nat.
Proof.
  cbv zeta.
  assert (deriveProof World.suite
            (World.deriveOptions false [World.givenName] (VStr "abc"))
            World.zeros
          = (Ok (World.derived [World.givenName] [0; 1; 3] (VStr "abc")),
             World.zeros)) as Hd by (vm_compute; reflexivity).
  assert (issuerStatements World.suite
            (World.deriveOptions false [World.givenName] (VStr "abc"))
          = Ok (World.proofStatements, World.documentStatements)) as Hi
    by (vm_compute; reflexivity).
  assert (revealedSubgraph World.suite
            (World.deriveOptions false [World.givenName] (VStr "abc"))
            World.documentStatements
          = Ok (World.reveal [World.givenName], [World.givenName])) as Hr
    by (vm_compute; reflexivity).
  split; [by split_and! |].
  exact (deriveProof_revealStatements _ _ _ _ _ _ _ _ _ Hd Hi Hr).
Defined.

Lemma deriveProof_nonce_witness :
  let options := World.deriveOptions false [World.givenName] (VStr "abc") in
  let derived := World.derived [World.givenName] [0; 1; 3] (VStr "abc") in
  (deriveProof World.suite options World.zeros = (Ok derived, World.zeros)
   ∧ truthy (DeriveProofOptions.nonce options) = true)
  ∧ get (derivedProof derived) "nonce" = VStr "abc".
Proof.
  cbv zeta.
  assert (deriveProof World.suite
            (World.deriveOptions false [World.givenName] (VStr "abc"))
            World.zeros
          = (Ok (World.derived [World.givenName] [0; 1; 3] (VStr "abc")),
             World.zeros)) as Hd by (vm_compute; reflexivity).
  split; [by split |].
  exact (proj1 (proj1 (deriveProof_nonce _ _ _ _ _ Hd) eq_refl)).
Defined.

Lemma deriveProof_falsy_nonce_witness :
  let options := World.deriveOptions false [World.givenName] (VStr EmptyString) in
  let derived := World.derived [World.givenName] [0; 1; 3] World.zeroNonce in
  (truthy (DeriveProofOptions.nonce options) = false
   ∧ deriveProof World.suite options World.zeros
     = (Ok derived, (randomBytes 50 World.zeros).2))
  ∧ get (derivedProof derived) "nonce" = World.zeroNonce
  ∧ get (derivedProof derived) "nonce" ≠ VStr EmptyString.
Proof.
  cbv zeta.
  assert (deriveProof World.suite
            (World.deriveOptions false [World.givenName] (VStr EmptyString))
            World.zeros
          = (Ok (World.derived [World.givenName] [0; 1; 3] World.zeroNonce),
             (randomBytes 50 World.zeros).2)) as Hd
    by (vm_compute; reflexivity).
  split; [by split |].
  destruct (proj2 (deriveProof_falsy_nonce World.suite
                     (World.deriveOptions false [World.givenName] (VStr EmptyString))
                     World.zeros eq_refl) _ _ Hd)
    as (Hn & _ & Hne & _).
  split; [exact Hn | exact Hne].
Defined.

(** The verification of the derived document, step by step. *)
Lemma World_statementsToVerify (revoked valid : bool) :
  statementsToVerify World.suite
    (World.verifyOptions
       (World.derived [World.givenName] [0; 1; 3] (VStr "abc"))
       revoked valid)
  = Ok (World.derivedProofStatements ++ [World.givenName]).
Proof. vm_compute; reflexivity. Qed.

Lemma verifyProof_never_throws_witness :
  ∃ envelope,
    World.verify (World.derived [World.givenName] [0; 1; 3] (VStr "abc"))
      true true
    = Ok envelope.
Proof.
  destruct (verifyProof_never_throws World.suite
              (World.verifyOptions
                 (World.derived [World.givenName] [0; 1; 3] (VStr "abc"))
                 true true))
    as (envelope & He & _).
  exists envelope. exact He.
Defined.

Lemma verifyProof_revoked_witness :
  let options :=
    World.verifyOptions
      (World.derived [World.givenName] [0; 1; 3] (VStr "abc")) true true in
  let resolved :=
    VObj (<["revoked" := VStr "2020-05-01"]>
            {["id" := VStr World.methodId]}) in
  (statementsToVerify World.suite options
   = Ok (World.derivedProofStatements ++ [World.givenName])
   ∧ verificationMethodReference (VerifyProofOptions.proof options)
     = Ok (VStr World.methodId)
   ∧ truthy (VStr World.methodId) = true
   ∧ frameVerificationMethod (VStr World.methodId)
       (VerifyProofOptions.documentLoader options)
     = Ok resolved
   ∧ get_property resolved "revoked" = Ok (VStr "2020-05-01")
   ∧ is_defined (VStr "2020-05-01") = true)
  ∧ verifyProof World.suite options
    = Ok {| bbs.verified := false;
            bbs.error := Some (Error revokedMessage) |}.
Proof.
  cbv zeta.
  pose (options :=
          World.verifyOptions
            (World.derived [World.givenName] [0; 1; 3] (VStr "abc"))
            true true).
  assert (statementsToVerify World.suite options
          = Ok (World.derivedProofStatements ++ [World.givenName])) as Hs
    by (vm_compute; reflexivity).
  assert (verificationMethodReference (VerifyProofOptions.proof options)
          = Ok (VStr World.methodId)) as Hr by (vm_compute; reflexivity).
  assert (frameVerificationMethod (VStr World.methodId)
            (VerifyProofOptions.documentLoader options)
          = Ok (VObj (<["revoked" := VStr "2020-05-01"]>
                        {["id" := VStr World.methodId]}))) as Hf
    by (vm_compute; reflexivity).
  assert (get_property
            (VObj (<["revoked" := VStr "2020-05-01"]>
                     {["id" := VStr World.methodId]})) "revoked"
          = Ok (VStr "2020-05-01")) as Hp by (vm_compute; reflexivity).
  split; [by split_and! |].
  exact (proj2 (proj2 (proj1 (verifyProof_revoked World.suite options)
                         _ _ _ Hr eq_refl Hf Hp eq_refl))
           _ Hs).
Defined.

Lemma verifyProof_purpose_witness :
  let options :=
    World.verifyOptions
      (World.derived [World.givenName] [0; 1; 3] (VStr "abc")) false false in
  let statements := World.derivedProofStatements ++ [World.givenName] in
  let resolved := VObj {["id" := VStr World.methodId]} in
  let validation :=
    {| Purpose.valid := false;
       Purpose.error := Error "purpose is not valid" |} in
  (statementsToVerify World.suite options = Ok statements
   ∧ getVerificationMethod (VerifyProofOptions.proof options)
       (VerifyProofOptions.documentLoader options)
     = Ok resolved
   ∧ cryptographicCheck World.suite options statements
     = Ok {| bbs.verified := true; bbs.error := None |}
   ∧ purposeCheck World.suite options resolved = Ok validation
   ∧ Purpose.valid validation = false)
  ∧ verifyProof World.suite options
    = Ok {| bbs.verified := false;
            bbs.error := Some (Error "purpose is not valid") |}.
Proof.
  cbv zeta.
  pose (options :=
          World.verifyOptions
            (World.derived [World.givenName] [0; 1; 3] (VStr "abc"))
            false false).
  assert (statementsToVerify World.suite options
          = Ok (World.derivedProofStatements ++ [World.givenName])) as Hs
    by (vm_compute; reflexivity).
  assert (getVerificationMethod (VerifyProofOptions.proof options)
            (VerifyProofOptions.documentLoader options)
          = Ok (VObj {["id" := VStr World.methodId]})) as Hm
    by (vm_compute; reflexivity).
  assert (cryptographicCheck World.suite options
            (World.derivedProofStatements ++ [World.givenName])
          = Ok {| bbs.verified := true; bbs.error := None |}) as Hc
    by (vm_compute; reflexivity).
  assert (purposeCheck World.suite options
            (VObj {["id" := VStr World.methodId]})
          = Ok {| Purpose.valid := false;
                  Purpose.error := Error "purpose is not valid" |}) as Hp
    by reflexivity.
  split; [by split_and! |].
  exact (proj1 (verifyProof_purpose World.suite options)
           _ _ _ _ Hs Hm Hc Hp eq_refl).
Defined.

Lemma createVerifyProofData_on_document_witness :
  let dataOptions :=
    {| DataOptions.documentLoader := World.loader false;
       DataOptions.expansionMap := None;
       DataOptions.compactProof := VUndefined |} in
  (World.signedDocument !! "totalStatements" = None
   ∧ World.signedDocument !! "revealStatements" = None
   ∧ World.signedDocument !! "nonce" = None
   ∧ World.signedDocument !! "proof" = None)
  ∧ createVerifyProofData World.suite (VObj World.signedDocument) dataOptions
    = createVerifyDocumentData World.suite (VObj World.signedDocument)
        dataOptions.
Proof.
  cbv zeta. split; [by split_and! |].
  refine (proj2 (proj2 (createVerifyProofData_on_document World.suite
                          (World.verifyOptions ∅ false true)
                          World.signedDocument _ _))
            eq_refl eq_refl eq_refl eq_refl).
  intros input algorithm format documentLoader expansionMap useNative.
  reflexivity.
Defined.

(** C7: a proof whose [verificationMethod] is [null] refers to no
    verification method, yet the resolution does not fail with the
    missing-reference error.  [typeof null] is ["object"], so line 355
    reads the [id] of [null] before the reference is tested on line 358:
    a [TypeError] is thrown, and [verifyProof] reports it as the cause.
    Without the property the same proof gets the missing-reference
    error. *)
Theorem getVerificationMethod_null_reference :
  let options := Scenario.verifyOptionsWith Scenario.nullMethodProof in
  let proof := VerifyProofOptions.proof options in
  let documentLoader := VerifyProofOptions.documentLoader options in
  get proof "verificationMethod" = VNull
  ∧ typeof_object (get proof "verificationMethod") = true
  ∧ (∃ message,
       verificationMethodReference proof = Err (TypeError message)
       ∧ getVerificationMethod proof documentLoader
         = Err (TypeError message)
       ∧ verifyProof World.suite options
         = Ok {| bbs.verified := false;
                 bbs.error := Some (TypeError message) |})
  ∧ getVerificationMethod proof documentLoader
    ≠ Err (Error noVerificationMethodMessage)
  ∧ getVerificationMethod (delete "verificationMethod" proof) documentLoader
    = Err (Error noVerificationMethodMessage).
Proof.
  cbv zeta. split_and!.
  - vm_compute; reflexivity.
  - vm_compute; reflexivity.
  - exists "Cannot read properties of null (reading 'id')".
    split_and!; vm_compute; reflexivity.
  - vm_compute. discriminate.
  - vm_compute; reflexivity.
Qed.

End Examples.

(** ** A derivation verified by a primitive that checks the messages *)

Section CheckedRoundTrip.
#[local] Existing Instances World.jsonld_api Checking.bbs_api
  World.Buffer_api World.jsigs_api World.issuer_api.


End CheckedRoundTrip.

(** * Further properties *)

(** ** The stabilizer, statement by statement *)

Section StabilizerMore.
Import JsString JsStringFacts.

Lemma substring_inner (s : string) (c : ascii) :
  substring ("<urn:bnid:" +:+ s +:+ String c EmptyString)
    (Z.of_nat (String.length "<urn:bnid:"))
    (Z.of_nat (String.length ("<urn:bnid:" +:+ s +:+ String c EmptyString))
     - 1)
  = s.
Proof.
  unfold substring.
  rewrite !length_append. simpl String.length.
  set (n := String.length s).
  replace (Z.min (Z.max (Z.of_nat 10) 0) (Z.of_nat (10 + (n + 1))))
    with 10 by lia.
  replace (Z.min (Z.max (Z.of_nat (10 + (n + 1)) - 1) 0)
             (Z.of_nat (10 + (n + 1))))
    with (10 + Z.of_nat n) by lia.
  replace (Z.to_nat (Z.min 10 (10 + Z.of_nat n))) with 10%nat by lia.
  replace (Z.to_nat (Z.max 10 (10 + Z.of_nat n) - Z.min 10 (10 + Z.of_nat n)))
    with n by lia.
  simpl. apply take_append.
Qed.

(** The inverse transform takes off the ten characters of [<urn:bnid:] and
    the last character of the node identifier, whichever character that
    is. *)
Theorem unstabilize_drops_last (label rest : string) (c : ascii) :
  startsWith label "_:c14n" = true →
  no_dollar label = true →
  no_space (label +:+ String c EmptyString) = true →
  at_boundary rest = true →
  unstabilize (("<urn:bnid:" +:+ label +:+ String c EmptyString) +:+ rest)
  = label +:+ rest.
Proof.
  intros Hb Hd Hs Hr.
  assert (no_space ("<urn:bnid:" +:+ label +:+ String c EmptyString) = true)
    as Hw by (by rewrite no_space_app, Hs).
  rewrite unstabilize_eq.
  rewrite nodeIdentifier_app, afterNodeIdentifier_app by done.
  assert (startsWith ("<urn:bnid:" +:+ label +:+ String c EmptyString)
            "<urn:bnid:_:c14n" = true) as ->.
  { unfold startsWith in Hb.
    destruct (strip_prefix "_:c14n" label) as [t|] eqn:E; [|done].
    apply strip_prefix_Some in E. subst label.
    apply (startsWith_app "<urn:bnid:_:c14n"). }
  rewrite substring_inner.
  by rewrite GetSubstitution_no_dollar.
Qed.

(** A stabilized blank-node statement begins with [<]. *)
Lemma stabilize_blank_head (element : string) :
  startsWith (nodeIdentifier element) "_:c14n" = true →
  ∃ t, stabilize element = String "<"%char t.
Proof.
  intros Hb. rewrite stabilize_eq, Hb. simpl. eauto.
Qed.

Lemma substring_wrapped_head (t : string) :
  ∃ u,
    substring ("<urn:bnid:_:c14n" +:+ t)
      (Z.of_nat (String.length "<urn:bnid:"))
      (Z.of_nat (String.length ("<urn:bnid:_:c14n" +:+ t)) - 1)
    = String "_"%char u.
Proof.
  unfold substring.
  rewrite length_append. simpl String.length.
  set (n := String.length t).
  replace (Z.min (Z.max (Z.of_nat 10) 0) (Z.of_nat (16 + n)))
    with 10 by lia.
  replace (Z.min (Z.max (Z.of_nat (16 + n) - 1) 0) (Z.of_nat (16 + n)))
    with (15 + Z.of_nat n) by lia.
  replace (Z.to_nat (Z.min 10 (15 + Z.of_nat n))) with 10%nat by lia.
  replace (Z.to_nat (Z.max 10 (15 + Z.of_nat n) - Z.min 10 (15 + Z.of_nat n)))
    with (S (4 + n)) by lia.
  simpl. eauto.
Qed.

(** An unstabilized wrapped statement begins with [_]. *)
Lemma unstabilize_wrapped_head (element : string) :
  startsWith (nodeIdentifier element) "<urn:bnid:_:c14n" = true →
  ∃ t, unstabilize element = String "_"%char t.
Proof.
  intros Hw. rewrite unstabilize_eq, Hw.
  unfold startsWith in Hw.
  destruct (strip_prefix "<urn:bnid:_:c14n" (nodeIdentifier element))
    as [t|] eqn:E; [|done].
  apply strip_prefix_Some in E. rewrite E.
  destruct (substring_wrapped_head t) as [u ->]. simpl. eauto.
Qed.

(** Both transforms are idempotent on every statement: what stabilization
    yields is no blank-node statement any more, and what the inverse yields
    is no wrapped statement any more. *)
Theorem stabilizer_idempotent (element : string) :
  stabilize (stabilize element) = stabilize element
  ∧ unstabilize (unstabilize element) = unstabilize element.
Proof.
  split.
  - destruct (startsWith (nodeIdentifier element) "_:c14n") eqn:Hb.
    + destruct (stabilize_blank_head element Hb) as [t ->].
      unfold stabilize. rewrite nodeIdentifier_cons. by simpl.
    + by rewrite !(stabilize_other element Hb).
  - destruct (startsWith (nodeIdentifier element) "<urn:bnid:_:c14n") eqn:Hw.
    + destruct (unstabilize_wrapped_head element Hw) as [t ->].
      unfold unstabilize. rewrite nodeIdentifier_cons. by simpl.
    + unfold unstabilize. by rewrite !Hw.
Qed.

Lemma stabilize_inj (a b : string) :
  roundTripSafe a = true → roundTripSafe b = true →
  stabilize a = stabilize b → a = b.
Proof.
  intros Ha Hb Heq.
  rewrite <- (roundTrip_statement a Ha), <- (roundTrip_statement b Hb).
  by rewrite Heq.
Qed.

(** On round-trip-safe statements stabilization is injective, and so it is
    on lists of them: different statements stay different. *)
Theorem stabilize_injective (l k : list string) :
  Forall (λ element, roundTripSafe element = true) l →
  Forall (λ element, roundTripSafe element = true) k →
  transformedInputDocumentStatements l = transformedInputDocumentStatements k →
  l = k.
Proof.
  unfold transformedInputDocumentStatements.
  intros Hl. revert k. induction Hl as [|a l Ha _ IH]; intros k Hk Heq.
  - by destruct k.
  - destruct Hk as [|b k Hb Hk]; [done |].
    simpl in Heq. injection Heq as Hab Hlk.
    f_equal; [by apply stabilize_inj | by apply IH].
Qed.

End StabilizerMore.

(** ** Statements as lines *)

Section Lines.
Import JsString JsStringFacts.

Lemma split_app (sep : ascii) (a b : string) :
  split sep (a +:+ String sep b) = split sep a ++ split sep b.
Proof.
  induction a as [|c a IH]; simpl.
  - by rewrite Ascii.eqb_refl.
  - destruct (Ascii.eqb c sep); [by rewrite IH |].
    rewrite IH. pose proof (split_nonempty sep a).
    by destruct (split sep a).
Qed.

Lemma split_no_newline (s : string) :
  no_newline s = true → split LF s = [s].
Proof.
  induction s as [|c s IH]; simpl; [done |].
  intros [Hc Hs]%andb_prop. apply negb_true_iff in Hc.
  by rewrite Hc, IH.
Qed.

Lemma split_lines (s : string) :
  Forall (λ l, no_newline l = true) (split LF s).
Proof.
  induction s as [|c s IH]; simpl; [by repeat constructor |].
  destruct (Ascii.eqb c LF) eqn:Hc; [by constructor |].
  pose proof (split_nonempty LF s).
  destruct (split LF s) as [|h t]; [done |].
  apply Forall_cons in IH as [Hh Ht].
  constructor; [|done]. simpl. by rewrite Hc, Hh.
Qed.

Lemma no_newline_app (a b : string) :
  no_newline (a +:+ b) = no_newline a && no_newline b.
Proof. induction a as [|x a IH]; simpl; [done | by rewrite IH, andb_assoc]. Qed.

Lemma statementsOf_app (a b : string) :
  statementsOf (a +:+ String LF b) = statementsOf a ++ statementsOf b.
Proof. unfold statementsOf. by rewrite split_app, filter_app. Qed.

Lemma statementsOf_statement (s : string) :
  isStatement s = true → statementsOf s = [s].
Proof.
  unfold isStatement, statementsOf. intros [Hl Hn]%andb_prop.
  rewrite split_no_newline by done.
  rewrite filter_cons_True by done. done.
Qed.

(** The statement routines return non-empty lines only. *)
Lemma statementsOf_isStatement (c14n : string) :
  Forall (λ s, isStatement s = true) (statementsOf c14n).
Proof.
  unfold statementsOf, isStatement.
  apply Forall_forall. intros s [Hlen Hin]%list_elem_of_filter.
  pose proof (split_lines c14n) as Hl.
  rewrite Forall_forall in Hl. by rewrite Hlen, (Hl s Hin).
Qed.

(** Joined with line feeds and split again, statements come back as they
    were. *)
Lemma statementsOf_join (l : list string) :
  Forall (λ s, isStatement s = true) l →
  statementsOf (join LF l) = l.
Proof.
  unfold join. induction 1 as [|x l Hx Hl IH]; [done |].
  destruct l as [|y l].
  - simpl. by apply statementsOf_statement.
  - change (String.concat (String LF EmptyString) (x :: y :: l))
      with (x +:+ String LF (String.concat (String LF EmptyString) (y :: l))).
    by rewrite statementsOf_app, IH, statementsOf_statement.
Qed.

Lemma GetSubstitution_other (m b a r : string) (c : ascii) :
  Ascii.eqb c DOLLAR = false →
  GetSubstitution m b a (String c r) = String c (GetSubstitution m b a r).
Proof. intros Hc. simpl. by rewrite Hc. Qed.

Lemma GetSubstitution_dollar (m b a r : string) (c d : ascii) :
  Ascii.eqb c DOLLAR = true →
  GetSubstitution m b a (String c (String d r))
  = if Ascii.eqb d DOLLAR then String DOLLAR (GetSubstitution m b a r)
    else if Ascii.eqb d "&"%char then m +:+ GetSubstitution m b a r
    else if Ascii.eqb d "`"%char then b +:+ GetSubstitution m b a r
    else if Ascii.eqb d "'"%char then a +:+ GetSubstitution m b a r
    else String c (GetSubstitution m b a (String d r)).
Proof. intros Hc. cbn [GetSubstitution]. by rewrite Hc. Qed.

(** A substitution built from texts without line feed has none either. *)
Lemma GetSubstitution_no_newline (m b a t : string) :
  no_newline m = true → no_newline b = true → no_newline a = true →
  no_newline t = true →
  no_newline (GetSubstitution m b a t) = true.
Proof.
  intros Hm Hb Ha.
  assert ((no_newline t = true → no_newline (GetSubstitution m b a t) = true)
          ∧ ∀ c, no_newline (String c t) = true →
                 no_newline (GetSubstitution m b a (String c t)) = true)
    as [? _]; [|done].
  induction t as [|d t [IH1 IH2]].
  - split; [done |]. intros c Hc. simpl.
    destruct (Ascii.eqb c DOLLAR); simpl in *; by rewrite ?Hc.
  - split; [apply IH2 |].
    intros c Hc. simpl in Hc.
    apply andb_prop in Hc as [Hc Hdt].
    pose proof Hdt as Hdt'. simpl in Hdt'.
    apply andb_prop in Hdt' as [Hd Ht].
    destruct (Ascii.eqb c DOLLAR) eqn:Ec.
    + rewrite GetSubstitution_dollar by done.
      destruct (Ascii.eqb d DOLLAR); [simpl; by apply IH1 |].
      destruct (Ascii.eqb d "&"%char);
        [rewrite no_newline_app, Hm; by apply IH1 |].
      destruct (Ascii.eqb d "`"%char);
        [rewrite no_newline_app, Hb; by apply IH1 |].
      destruct (Ascii.eqb d "'"%char);
        [rewrite no_newline_app, Ha; by apply IH1 |].
      cbn [no_newline]. rewrite Hc. exact (IH2 d Hdt).
    + rewrite GetSubstitution_other by done.
      cbn [no_newline]. rewrite Hc. exact (IH2 d Hdt).
Qed.

Lemma no_newline_take (n : nat) (s : string) :
  no_newline s = true → no_newline (take n s) = true.
Proof.
  revert n; induction s as [|c s IH]; intros [|n]; simpl; try done.
  intros [Hc Hs]%andb_prop. by rewrite Hc, IH.
Qed.

Lemma no_newline_drop (n : nat) (s : string) :
  no_newline s = true → no_newline (drop n s) = true.
Proof.
  revert n; induction s as [|c s IH]; intros [|n]; simpl; try done.
  intros [Hc Hs]%andb_prop. by apply IH.
Qed.

Lemma isStatement_stabilize (element : string) :
  isStatement element = true → isStatement (stabilize element) = true.
Proof.
  unfold isStatement. intros [Hl Hn]%andb_prop.
  destruct (startsWith (nodeIdentifier element) "_:c14n") eqn:Hb;
    [|by rewrite (stabilize_other element Hb), Hl, Hn].
  apply andb_true_intro. split.
  - by destruct (stabilize_blank_head element Hb) as [t ->].
  - destruct (nodeIdentifier_split element) as (He & _ & _).
    rewrite He, no_newline_app in Hn. apply andb_prop in Hn as [Hi Ha].
    rewrite stabilize_eq, Hb, no_newline_app, Ha, andb_true_r.
    apply GetSubstitution_no_newline; try done.
    by rewrite !no_newline_app, Hi.
Qed.

Lemma isStatement_unstabilize (element : string) :
  isStatement element = true → isStatement (unstabilize element) = true.
Proof.
  unfold isStatement. intros [Hl Hn]%andb_prop.
  destruct (startsWith (nodeIdentifier element) "<urn:bnid:_:c14n") eqn:Hw;
    [|unfold unstabilize; by rewrite Hw, Hl, Hn].
  apply andb_true_intro. split.
  - by destruct (unstabilize_wrapped_head element Hw) as [t ->].
  - destruct (nodeIdentifier_split element) as (He & _ & _).
    rewrite He, no_newline_app in Hn. apply andb_prop in Hn as [Hi Ha].
    rewrite unstabilize_eq, Hw, no_newline_app, Ha, andb_true_r.
    apply GetSubstitution_no_newline; try done.
    unfold substring. by apply no_newline_take, no_newline_drop.
Qed.

End Lines.

(** ** More on derivation *)

Section DeriveMore.
Context {jsonld_api : jsonld.api} {bbs_api : bbs.api}
        {Buffer_api : Buffer.api} {jsigs_api : jsigs.api}
        {issuer_api : BbsBlsSignature2020.api}.

Lemma strict_eq_string_false (o : obj) (name text : string) :
  o !! name ≠ Some (VStr text) → strict_eq_string (get o name) text = false.
Proof.
  intros Hne. unfold get.
  destruct (o !! name) as [[| | | |s| |]|]; simpl; try done.
  destruct (String.eqb_spec s text) as [->|]; done.
Qed.

Lemma deriveProof_type_guard (this : Suite.t)
    (options : DeriveProofOptions.t) (g : rng) :
  DeriveProofOptions.proof options !! "type"
  ≠ Some (VStr "BbsBlsSignature2020") →
  deriveProof this options g = (Err (TypeError incompatibleProofMessage), g).
Proof.
  intros Hne. unfold deriveProof.
  by rewrite (strict_eq_string_false _ _ _ Hne).
Qed.

(** A proof that is not of type [BbsBlsSignature2020] (another type, no type,
    a type that is no string) is refused with the type error before
    anything else is done: no collaborator decides, whatever the other
    options are, and no entropy is used. *)
Theorem deriveProof_incompatible_type (this : Suite.t)
    (options : DeriveProofOptions.t) (g : rng) :
  DeriveProofOptions.proof options !! "type"
  ≠ Some (VStr "BbsBlsSignature2020") →
  deriveProof this options g = (Err (TypeError incompatibleProofMessage), g)
  ∧ ∀ document revealDocument documentLoader expansionMap compactProof nonce,
      deriveProof this
        {| DeriveProofOptions.document := document;
           DeriveProofOptions.proof := DeriveProofOptions.proof options;
           DeriveProofOptions.revealDocument := revealDocument;
           DeriveProofOptions.documentLoader := documentLoader;
           DeriveProofOptions.expansionMap := expansionMap;
           DeriveProofOptions.compactProof := compactProof;
           DeriveProofOptions.nonce := nonce |} g
      = deriveProof this options g.
Proof.
  intros Hne. split; [by apply deriveProof_type_guard |].
  intros. by rewrite !deriveProof_type_guard.
Qed.

(** [deriveProof] returns exactly when the proof has the issuer type, the
    signature decodes and every collaborator answers; what it returns is
    then the assembled document.  There is no other way for it to fail or to
    return. *)
Theorem deriveProof_returns_iff (this : Suite.t)
    (options : DeriveProofOptions.t) (g g' : rng) (derived : obj) :
  deriveProof this options g = (Ok derived, g')
  ↔ ∃ signature documentStatements proofStatements revealDocumentResult
      revealDocumentStatements nonce outputProof,
      strict_eq_string (get (DeriveProofOptions.proof options) "type")
        "BbsBlsSignature2020" = true
      ∧ Buffer.from_base64 (get (DeriveProofOptions.proof options) "signature")
        = Ok signature
      ∧ issuerStatements this options = Ok (proofStatements, documentStatements)
      ∧ revealedSubgraph this options documentStatements
        = Ok (revealDocumentResult, revealDocumentStatements)
      ∧ resolveNonce (DeriveProofOptions.nonce options) g = (Ok nonce, g')
      ∧ bbs.blsCreateProof
          {| bbs.signature := signature;
             bbs.publicKey := publicKeyBuffer (Suite.key this);
             bbs.messages := proofStatements ++ documentStatements;
             bbs.nonce := nonce;
             bbs.revealed :=
               revealIndicies proofStatements documentStatements
                 revealDocumentStatements |}
        = Ok outputProof
      ∧ derived
        = derivedDocument this (DeriveProofOptions.proof options)
            revealDocumentResult
            (revealIndicies proofStatements documentStatements
               revealDocumentStatements)
            (List.length (proofStatements ++ documentStatements))
            nonce outputProof.
Proof.
  split; [apply deriveProof_Ok |].
  intros (sg & ds & ps & rd & rs & nonce & op
          & Ht & Hs & Hi & Hr & Hn & Hc & ->).
  rewrite deriveProof_steps. cbv zeta.
  by rewrite Ht, Hs, Hi, Hr, Hn, Hc.
Qed.

(** The nonce step always answers. *)
Lemma resolveNonce_cases (nonce : value) (g : rng) :
  (truthy nonce = true ∧ resolveNonce nonce g = (Ok nonce, g))
  ∨ (truthy nonce = false
     ∧ resolveNonce nonce g
       = (Ok (VStr (Buffer.toString_base64 (randomBytes 50 g).1)),
          (randomBytes 50 g).2)).
Proof.
  destruct (truthy nonce) eqn:Ht.
  - left. by rewrite resolveNonce_truthy.
  - right. by rewrite resolveNonce_falsy.
Qed.

(** Whatever the outcome, a call uses the random source sparingly: with a
    truthy nonce it is left as it was, otherwise at most the next 50 bytes
    are consumed, and the entropy itself is never altered. *)
Theorem deriveProof_entropy (this : Suite.t)
    (options : DeriveProofOptions.t) (g g' : rng) (r : result obj) :
  deriveProof this options g = (r, g') →
  entropy g' = entropy g
  ∧ (truthy (DeriveProofOptions.nonce options) = true → g' = g)
  ∧ (consumed g' = consumed g
     ∨ truthy (DeriveProofOptions.nonce options) = false
       ∧ consumed g' = (consumed g + 50)%nat).
Proof.
  rewrite deriveProof_steps. cbv zeta.
  destruct (negb _); [intros [= <- <-]; by auto |].
  destruct (Buffer.from_base64 _); [|intros [= <- <-]; by auto].
  destruct (issuerStatements _ _) as [[ps ds]|]; [|intros [= <- <-]; by auto].
  destruct (revealedSubgraph _ _ _) as [[rd rs]|];
    [|intros [= <- <-]; by auto].
  destruct (resolveNonce_cases (DeriveProofOptions.nonce options) g)
    as [[Ht ->]|[Ht ->]].
  - destruct (bbs.blsCreateProof _); intros [= <- <-]; by auto.
  - destruct (bbs.blsCreateProof _); intros [= <- <-];
      (split_and!; [done | by rewrite Ht | by right]).
Qed.

(** A failing step ends the derivation with that step's error.  Up to the
    framing no entropy has been used by then. *)
Theorem deriveProof_aborts (this : Suite.t)
    (options : DeriveProofOptions.t) (g : rng) :
  strict_eq_string (get (DeriveProofOptions.proof options) "type")
    "BbsBlsSignature2020" = true →
  (∀ e,
     Buffer.from_base64 (get (DeriveProofOptions.proof options) "signature")
     = Err e →
     deriveProof this options g = (Err e, g))
  ∧ (∀ signature e,
       Buffer.from_base64
         (get (DeriveProofOptions.proof options) "signature")
       = Ok signature →
       issuerStatements this options = Err e →
       deriveProof this options g = (Err e, g))
  ∧ (∀ signature proofStatements documentStatements e,
       Buffer.from_base64
         (get (DeriveProofOptions.proof options) "signature")
       = Ok signature →
       issuerStatements this options
       = Ok (proofStatements, documentStatements) →
       revealedSubgraph this options documentStatements = Err e →
       deriveProof this options g = (Err e, g))
  ∧ (∀ signature proofStatements documentStatements revealDocumentResult
       revealDocumentStatements nonce g' e,
       Buffer.from_base64
         (get (DeriveProofOptions.proof options) "signature")
       = Ok signature →
       issuerStatements this options
       = Ok (proofStatements, documentStatements) →
       revealedSubgraph this options documentStatements
       = Ok (revealDocumentResult, revealDocumentStatements) →
       resolveNonce (DeriveProofOptions.nonce options) g = (Ok nonce, g') →
       bbs.blsCreateProof
         {| bbs.signature := signature;
            bbs.publicKey := publicKeyBuffer (Suite.key this);
            bbs.messages := proofStatements ++ documentStatements;
            bbs.nonce := nonce;
            bbs.revealed :=
              revealIndicies proofStatements documentStatements
                revealDocumentStatements |}
       = Err e →
       deriveProof this options g = (Err e, g')).
Proof.
  intros Ht. split_and!.
  - intros e Hs. rewrite deriveProof_steps. cbv zeta. by rewrite Ht, Hs.
  - intros sg e Hs Hi. rewrite deriveProof_steps. cbv zeta.
    by rewrite Ht, Hs, Hi.
  - intros sg ps ds e Hs Hi Hr. rewrite deriveProof_steps. cbv zeta.
    by rewrite Ht, Hs, Hi, Hr.
  - intros sg ps ds rd rs nonce g' e Hs Hi Hr Hn Hc.
    rewrite deriveProof_steps. cbv zeta.
    by rewrite Ht, Hs, Hi, Hr, Hn, Hc.
Qed.

(** What the derived proof publishes is what the primitive was asked: the
    nonce, the reveal indices, the number of messages, and the proof bytes
    it answered, under the suite's key and the issuer's decoded signature. *)
Theorem deriveProof_publishes_request (this : Suite.t)
    (options : DeriveProofOptions.t) (g g' : rng) (derived : obj) :
  deriveProof this options g = (Ok derived, g') →
  ∃ request outputProof,
    bbs.blsCreateProof request = Ok outputProof
    ∧ get (derivedProof derived) "proof"
      = VStr (Buffer.toString_base64 outputProof)
    ∧ get (derivedProof derived) "nonce" = bbs.nonce request
    ∧ get (derivedProof derived) "revealStatements"
      = VArr (VNum <$> bbs.revealed request)
    ∧ get (derivedProof derived) "totalStatements"
      = VNum (Z.of_nat (List.length (bbs.messages request)))
    ∧ bbs.publicKey request = publicKeyBuffer (Suite.key this)
    ∧ Buffer.from_base64 (get (DeriveProofOptions.proof options) "signature")
      = Ok (bbs.signature request).
Proof.
  intros Hd.
  apply deriveProof_Ok in Hd
    as (sg & ds & ps & rd & rs & nonce & op & _ & Hs & _ & _ & _ & Hc & ->).
  destruct (derivedProof_derivedDocument this
              (DeriveProofOptions.proof options) rd
              (revealIndicies ps ds rs) (List.length (ps ++ ds)) nonce op)
    as (En & Et & Er & Ep & _).
  eexists _, op. split; [exact Hc |]. by rewrite En, Et, Er, Ep.
Qed.

(** The derived proof never carries the issuer's signature; its type is the
    suite's; and every other property of the issuer's proof, apart from the
    four the derivation sets, is taken over unchanged. *)
Theorem deriveProof_proof_fields (this : Suite.t)
    (options : DeriveProofOptions.t) (g g' : rng) (derived : obj) :
  deriveProof this options g = (Ok derived, g') →
  derivedProof derived !! "signature" = None
  ∧ derivedProof derived !! "type" = Some (VStr (Suite.type this))
  ∧ ∀ name, name ∉ replacedFields →
            derivedProof derived !! name
            = DeriveProofOptions.proof options !! name.
Proof.
  intros Hd.
  apply deriveProof_Ok in Hd
    as (sg & ds & ps & rd & rs & nonce & op & _ & _ & _ & _ & _ & _ & ->).
  unfold derivedProof, derivedDocument, get. cbv zeta.
  rewrite lookup_insert_eq. simpl.
  split_and!.
  - rewrite !lookup_insert_ne by done.
    rewrite lookup_union_r; [done |].
    rewrite lookup_delete_ne by done. apply lookup_delete_eq.
  - rewrite !lookup_insert_ne by done.
    rewrite lookup_union_r; [by rewrite lookup_singleton_eq |].
    apply lookup_delete_eq.
  - intros name Hname. unfold replacedFields in Hname.
    rewrite !not_elem_of_cons in Hname.
    destruct Hname as (H1 & H2 & H3 & H4 & H5 & H6 & _).
    rewrite !lookup_insert_ne by done.
    rewrite lookup_union_l; [|by rewrite lookup_singleton_ne].
    by rewrite !lookup_delete_ne.
Qed.

(** The derived document is the framed reveal document with its [proof]
    property set to the derived proof: every other property is the framed
    document's. *)
Theorem deriveProof_document_fields (this : Suite.t)
    (options : DeriveProofOptions.t) (g g' : rng) (derived : obj)
    (proofStatements documentStatements revealDocumentStatements
       : list string)
    (revealDocumentResult : value) :
  deriveProof this options g = (Ok derived, g') →
  issuerStatements this options = Ok (proofStatements, documentStatements) →
  revealedSubgraph this options documentStatements
  = Ok (revealDocumentResult, revealDocumentStatements) →
  derived !! "proof" = Some (VObj (derivedProof derived))
  ∧ delete "proof" derived = delete "proof" (spread revealDocumentResult)
  ∧ ∀ name, name ≠ "proof" →
            derived !! name = spread revealDocumentResult !! name.
Proof.
  intros Hd Hi Hr.
  apply deriveProof_Ok in Hd
    as (sg & ds & ps & rd & rs & nonce & op & _ & _ & Hi' & Hr' & _ & _ & ->).
  rewrite Hi in Hi'. injection Hi' as <- <-.
  rewrite Hr in Hr'. injection Hr' as <- <-.
  unfold derivedProof, derivedDocument, get. cbv zeta.
  split_and!.
  - by rewrite lookup_insert_eq.
  - by rewrite delete_insert_eq.
  - intros name Hname. by rewrite lookup_insert_ne.
Qed.

(** Derivation does not chain: the proof of a derived document is of the
    suite's own type, so a suite made by the constructor refuses it as
    input. *)
Theorem deriveProof_not_again (useNativeCanonize : option bool)
    (key : Bls12381G2KeyPair) (options again : DeriveProofOptions.t)
    (g g' h : rng) (derived : obj) :
  let this := BbsBlsSignatureProof2020 useNativeCanonize key in
  deriveProof this options g = (Ok derived, g') →
  DeriveProofOptions.proof again = derivedProof derived →
  deriveProof this again h = (Err (TypeError incompatibleProofMessage), h).
Proof.
  cbv zeta. intros Hd Hp.
  apply deriveProof_type_guard. rewrite Hp.
  apply deriveProof_Ok in Hd
    as (sg & ds & ps & rd & rs & nonce & op & _ & _ & _ & _ & _ & _ & ->).
  unfold derivedProof, derivedDocument, get. cbv zeta.
  rewrite lookup_insert_eq. simpl.
  rewrite !lookup_insert_ne by done.
  rewrite lookup_union_r by apply lookup_delete_eq.
  rewrite lookup_singleton_eq. by intros [=].
Qed.

End DeriveMore.

(** ** Where the reveal indices point *)

Section Indices.
Context {jsonld_api : jsonld.api} {bbs_api : bbs.api}
        {Buffer_api : Buffer.api} {jsigs_api : jsigs.api}
        {issuer_api : BbsBlsSignature2020.api}.

(** In a list without repetition [indexOf] answers the position itself. *)
Lemma indexOf_NoDup (l : list string) (p : nat) (key : string) :
  NoDup l → l !! p = Some key → JsString.indexOf l key = Z.of_nat p.
Proof.
  unfold JsString.indexOf.
  intros Hnd. revert p. induction Hnd as [|x l Hx Hnd IH]; intros p Hp.
  - done.
  - simpl. destruct p as [|p]; simpl in Hp.
    + injection Hp as ->. by rewrite String.eqb_refl.
    + destruct (String.eqb_spec x key) as [->|Hne].
      * exfalso. apply Hx. by eapply list_elem_of_lookup_2.
      * rewrite JsStringFacts.indexOf_from_shift, (IH p Hp).
        destruct (Z.of_nat p <? 0) eqn:E; [apply Z.ltb_lt in E; lia | lia].
  Qed.

(** What the derived proof says about indices and count. *)
Lemma deriveProof_indices (this : Suite.t) (options : DeriveProofOptions.t)
    (g g' : rng) (derived : obj)
    (proofStatements documentStatements revealDocumentStatements
       : list string)
    (revealDocumentResult : value) :
  deriveProof this options g = (Ok derived, g') →
  issuerStatements this options = Ok (proofStatements, documentStatements) →
  revealedSubgraph this options documentStatements
  = Ok (revealDocumentResult, revealDocumentStatements) →
  get (derivedProof derived) "revealStatements"
  = VArr (VNum <$> revealIndicies proofStatements documentStatements
                     revealDocumentStatements)
  ∧ get (derivedProof derived) "totalStatements"
    = VNum (Z.of_nat (List.length proofStatements
                      + List.length documentStatements)).
Proof.
  intros Hd Hi Hr.
  apply deriveProof_Ok in Hd
    as (sg & ds & ps & rd & rs & nonce & op & _ & _ & Hi' & Hr' & _ & _ & ->).
  rewrite Hi in Hi'. injection Hi' as <- <-.
  rewrite Hr in Hr'. injection Hr' as <- <-.
  destruct (derivedProof_derivedDocument this
              (DeriveProofOptions.proof options) revealDocumentResult
              (revealIndicies proofStatements documentStatements
                 revealDocumentStatements)
              (List.length (proofStatements ++ documentStatements)) nonce op)
    as (_ & -> & -> & _).
  by rewrite length_app.
Qed.

Lemma revealIndicies_document (ps ds rs : list string) (i : nat) :
  revealIndicies ps ds rs !! (List.length ps + i)%nat
  = documentRevealIndicies (transformedInputDocumentStatements ds) rs
      (List.length ps) !! i.
Proof.
  unfold revealIndicies.
  rewrite lookup_app_r by (rewrite length_proofRevealIndicies; lia).
  rewrite length_proofRevealIndicies. f_equal. lia.
Qed.

(** The index published for a revealed statement that occurs among the
    stabilized document statements is the position, in the signed message
    list, of a document statement whose stabilized form is that revealed
    statement. *)
Theorem deriveProof_index_points (this : Suite.t)
    (options : DeriveProofOptions.t) (g g' : rng) (derived : obj)
    (proofStatements documentStatements revealDocumentStatements
       : list string)
    (revealDocumentResult : value) (i : nat) (key : string) :
  deriveProof this options g = (Ok derived, g') →
  issuerStatements this options = Ok (proofStatements, documentStatements) →
  revealedSubgraph this options documentStatements
  = Ok (revealDocumentResult, revealDocumentStatements) →
  revealDocumentStatements !! i = Some key →
  key ∈ transformedInputDocumentStatements documentStatements →
  ∃ indices position statement,
    get (derivedProof derived) "revealStatements" = VArr (VNum <$> indices)
    ∧ indices !! (List.length proofStatements + i)%nat
      = Some (Z.of_nat position)
    ∧ (proofStatements ++ documentStatements) !! position = Some statement
    ∧ (List.length proofStatements ≤ position)%nat
    ∧ stabilize statement = key.
Proof.
  intros Hd Hi Hr Hk Hin.
  destruct (deriveProof_indices _ _ _ _ _ _ _ _ _ Hd Hi Hr) as [Hidx _].
  destruct (documentRevealIndicies_present _ _ (List.length proofStatements)
              _ _ Hk Hin) as (p & Hp & Hdoc).
  unfold transformedInputDocumentStatements in Hp.
  rewrite list_lookup_fmap in Hp.
  destruct (documentStatements !! p) as [s|] eqn:Hs; [|done].
  injection Hp as Hp.
  exists (revealIndicies proofStatements documentStatements
            revealDocumentStatements),
    (List.length proofStatements + p)%nat, s.
  split_and!; [done | | | lia | done].
  - rewrite revealIndicies_document. exact Hdoc.
  - rewrite lookup_app_r by lia.
    by replace (List.length proofStatements + p - List.length proofStatements)%nat
      with p by lia.
Qed.

(** The signed messages at the given indices. *)
Lemma messages_at_proof_indices (ps ds : list string) :
  (λ i, (ps ++ ds) !! Z.to_nat i) <$> proofRevealIndicies (List.length ps)
  = Some <$> ps.
Proof.
  unfold proofRevealIndicies. apply list_eq. intros i.
  rewrite !list_lookup_fmap.
  destruct (decide (i < List.length ps)%nat) as [Hlt|Hge].
  - rewrite (lookup_seq_lt _ _ _ Hlt). simpl.
    rewrite Nat2Z.id, lookup_app_l by done.
    destruct (lookup_lt_is_Some_2 ps i Hlt) as [x Hx]. by rewrite Hx.
  - rewrite lookup_seq_ge by lia. simpl.
    by rewrite lookup_ge_None_2 by lia.
Qed.

Lemma messages_at_document_indices (ps ds rs : list string) :
  Forall (λ element, roundTripSafe element = true) ds →
  Forall (λ key, key ∈ transformedInputDocumentStatements ds) rs →
  (λ i, (ps ++ ds) !! Z.to_nat i)
    <$> documentRevealIndicies (transformedInputDocumentStatements ds) rs
          (List.length ps)
  = Some <$> transformedDocumentStatements rs
  ∧ Forall (λ i, Z.of_nat (List.length ps) ≤ i
                 < Z.of_nat (List.length (ps ++ ds)))
      (documentRevealIndicies (transformedInputDocumentStatements ds) rs
         (List.length ps)).
Proof.
  intros Hsafe Hall.
  unfold documentRevealIndicies, transformedDocumentStatements.
  induction Hall as [|key rs Hin _ [IH1 IH2]]; [by split |].
  destruct (JsStringFacts.indexOf_present _ _ Hin) as [H0 Hp].
  apply list_lookup_fmap_Some in Hp as (s & Hp & Hs). symmetry in Hp.
  assert (unstabilize key = s) as Hun.
  { rewrite <- Hp. apply roundTrip_statement.
    rewrite Forall_forall in Hsafe. apply Hsafe.
    by eapply list_elem_of_lookup_2. }
  pose proof (lookup_lt_Some _ _ _ Hs) as Hlt.
  split.
  - cbn [map]. rewrite !fmap_cons. f_equal; [|exact IH1].
    rewrite lookup_app_r by lia.
    replace (Z.to_nat (JsString.indexOf
                         (transformedInputDocumentStatements ds) key
                       + Z.of_nat (List.length ps)) - List.length ps)%nat
      with (Z.to_nat (JsString.indexOf
                        (transformedInputDocumentStatements ds) key))
      by lia.
    by rewrite Hs, Hun.
  - cbn [map]. constructor; [|exact IH2]. rewrite length_app. lia.
Qed.

(** The published indices point at the revealed statements among the
    signed messages of the derivation: when every document statement is
    round-trip safe and every revealed statement occurs among the stabilized
    document statements, the signed messages found at the published indices
    are, in order, the proof statements followed by the unstabilized revealed
    statements, and every index lies within the signed message list. *)
Theorem deriveProof_indices_aligned (this : Suite.t)
    (options : DeriveProofOptions.t) (g g' : rng) (derived : obj)
    (proofStatements documentStatements revealDocumentStatements
       : list string)
    (revealDocumentResult : value) :
  deriveProof this options g = (Ok derived, g') →
  issuerStatements this options = Ok (proofStatements, documentStatements) →
  revealedSubgraph this options documentStatements
  = Ok (revealDocumentResult, revealDocumentStatements) →
  Forall (λ element, roundTripSafe element = true) documentStatements →
  Forall (λ key, key ∈ transformedInputDocumentStatements documentStatements)
    revealDocumentStatements →
  ∃ indices,
    get (derivedProof derived) "revealStatements" = VArr (VNum <$> indices)
    ∧ (λ i, (proofStatements ++ documentStatements) !! Z.to_nat i)
        <$> indices
      = Some <$> (proofStatements
                  ++ transformedDocumentStatements revealDocumentStatements)
    ∧ Forall (λ i, 0 ≤ i
                   < Z.of_nat (List.length
                                 (proofStatements ++ documentStatements)))
        indices.
Proof.
  intros Hd Hi Hr Hsafe Hall.
  destruct (deriveProof_indices _ _ _ _ _ _ _ _ _ Hd Hi Hr) as [Hidx _].
  destruct (messages_at_document_indices proofStatements _ _ Hsafe Hall)
    as [Hdoc Hrange].
  eexists. split; [exact Hidx |].
  unfold revealIndicies. split.
  - by rewrite !fmap_app, messages_at_proof_indices, Hdoc.
  - apply Forall_app. split.
    + unfold proofRevealIndicies. apply Forall_fmap, Forall_forall.
      intros i Hi'%elem_of_seq. simpl. rewrite length_app. lia.
    + eapply Forall_impl; [exact Hrange |]. simpl. lia.
Qed.

(** Full disclosure: a reveal document whose statements are all the
    stabilized document statements, in order, yields the indices
    [0 .. totalStatements-1], provided the document statements are distinct
    and round-trip safe. *)
Theorem deriveProof_full_disclosure (this : Suite.t)
    (options : DeriveProofOptions.t) (g g' : rng) (derived : obj)
    (proofStatements documentStatements : list string)
    (revealDocumentResult : value) :
  deriveProof this options g = (Ok derived, g') →
  issuerStatements this options = Ok (proofStatements, documentStatements) →
  revealedSubgraph this options documentStatements
  = Ok (revealDocumentResult,
        transformedInputDocumentStatements documentStatements) →
  NoDup documentStatements →
  Forall (λ element, roundTripSafe element = true) documentStatements →
  ∃ total,
    get (derivedProof derived) "totalStatements" = VNum (Z.of_nat total)
    ∧ get (derivedProof derived) "revealStatements"
      = VArr (VNum <$> (Z.of_nat <$> seq 0 total)).
Proof.
  intros Hd Hi Hr Hnd Hsafe.
  destruct (deriveProof_indices _ _ _ _ _ _ _ _ _ Hd Hi Hr) as [Hidx Htot].
  eexists. split; [exact Htot |]. rewrite Hidx. do 2 f_equal.
  unfold revealIndicies, proofRevealIndicies, documentRevealIndicies.
  rewrite seq_app, fmap_app. f_equal.
  assert (NoDup (transformedInputDocumentStatements documentStatements))
    as Hnd'.
  { unfold transformedInputDocumentStatements.
    apply NoDup_fmap_2_strong; [|done].
    rewrite Forall_forall in Hsafe.
    intros a b Ha Hb. apply stabilize_inj; by apply Hsafe. }
  apply list_eq. intros i. rewrite !list_lookup_fmap.
  destruct (transformedInputDocumentStatements documentStatements !! i)
    as [key|] eqn:Hk.
  - simpl. rewrite (indexOf_NoDup _ _ _ Hnd' Hk).
    pose proof (lookup_lt_Some _ _ _ Hk) as Hlt.
    unfold transformedInputDocumentStatements in Hlt.
    rewrite length_fmap in Hlt.
    rewrite lookup_seq_lt by done. simpl. f_equal. lia.
  - simpl. apply lookup_ge_None_1 in Hk.
    unfold transformedInputDocumentStatements in Hk.
    rewrite length_fmap in Hk.
    by rewrite lookup_seq_ge by lia.
Qed.

End Indices.

(** ** More on the statement routines *)

Section StatementsMore.
Context {jsonld_api : jsonld.api}.

(** Both statement routines return non-empty lines without line feed,
    whatever text the canonicalizer produced. *)
Theorem createVerifyData_statements (this : Suite.t) (input : value)
    (options : DataOptions.t) (statements : list string) :
  createVerifyProofData this input options = Ok statements
  ∨ createVerifyDocumentData this input options = Ok statements →
  Forall (λ s, isStatement s = true) statements.
Proof.
  unfold createVerifyProofData, createVerifyDocumentData.
  unfold mbind, result_bind, mret, result_ret.
  intros [H|H].
  - destruct (canonizeProof _ _ _); [|done].
    injection H as <-. apply statementsOf_isStatement.
  - destruct (canonize _ _ _); [|done].
    injection H as <-. apply statementsOf_isStatement.
Qed.

(** The text handed to [jsonld.fromRDF] has the stabilized statements as its
    lines: split like a canonical text it gives them back, one per document
    statement and in the same order. *)
Theorem dataset_lines (documentStatements : list string) :
  Forall (λ s, isStatement s = true) documentStatements →
  statementsOf
    (JsString.join JsString.LF
       (transformedInputDocumentStatements documentStatements))
  = transformedInputDocumentStatements documentStatements
  ∧ List.length (transformedInputDocumentStatements documentStatements)
    = List.length documentStatements.
Proof.
  intros Hall. split.
  - apply statementsOf_join. unfold transformedInputDocumentStatements.
    apply Forall_fmap. eapply Forall_impl; [exact Hall |].
    intros s Hs. by apply isStatement_stabilize.
  - apply length_map.
Qed.

Lemma delete_disclosure_insert (proof : obj) (name : string) (v : value) :
  name ∈ disclosureFields →
  delete "proof"
    (delete "nonce"
       (delete "revealStatements"
          (delete "totalStatements" (<[name := v]> proof))))
  = delete "proof"
      (delete "nonce"
         (delete "revealStatements" (delete "totalStatements" proof))).
Proof.
  intros Hin. apply map_eq. intros k.
  unfold disclosureFields in Hin.
  rewrite !lookup_delete.
  repeat case_decide; try done.
  rewrite lookup_insert_ne; [done |].
  intros Heq. rewrite Heq in Hin.
  repeat (apply elem_of_cons in Hin as [Hin|Hin]; [congruence |]).
  by apply elem_of_nil in Hin.
Qed.

(** The proof-statement routine does not look at the four disclosure fields:
    setting any of them to any value leaves the statements as they were.  On
    the verify path this holds for the proof and, the same routine being
    used, for the document. *)
Theorem createVerifyProofData_ignores_disclosure (this : Suite.t)
    (proof : obj) (name : string) (v : value) (options : DataOptions.t) :
  name ∈ disclosureFields →
  createVerifyProofData this (VObj (<[name := v]> proof)) options
  = createVerifyProofData this (VObj proof) options
  ∧ createVerifyProofData this (VObj (delete name proof)) options
    = createVerifyProofData this (VObj proof) options.
Proof.
  intros Hin.
  unfold createVerifyProofData, canonizeProof. simpl.
  split.
  - by rewrite delete_disclosure_insert.
  - rewrite <- (delete_disclosure_insert (delete name proof) name VUndefined)
      by done.
    rewrite <- (delete_disclosure_insert proof name VUndefined) by done.
    by rewrite insert_delete_eq.
Qed.

(** For a document that has none of the disclosure fields and no wrapped
    node identifier among its statements, the verify path recomputes what
    [createVerifyData] computes, the canonicalizer reading an absent
    [skipExpansion] as [false]. *)
Theorem statementsToVerify_createVerifyData (this : Suite.t)
    (options : VerifyProofOptions.t) :
  let dataOptions :=
    {| DataOptions.documentLoader := VerifyProofOptions.documentLoader options;
       DataOptions.expansionMap := VerifyProofOptions.expansionMap options;
       DataOptions.compactProof := VUndefined |} in
  let document := VerifyProofOptions.document options in
  (∀ input algorithm format documentLoader expansionMap useNative,
     jsonld.canonize input
       {| jsonld.algorithm := algorithm; jsonld.format := format;
          jsonld.documentLoader := documentLoader;
          jsonld.expansionMap := expansionMap;
          jsonld.skipExpansion := None; jsonld.useNative := useNative |}
     = jsonld.canonize input
         {| jsonld.algorithm := algorithm; jsonld.format := format;
            jsonld.documentLoader := documentLoader;
            jsonld.expansionMap := expansionMap;
            jsonld.skipExpansion := Some false;
            jsonld.useNative := useNative |}) →
  Forall (λ name, document !! name = None) disclosureFields →
  (∀ statements,
     createVerifyDocumentData this (VObj document) dataOptions
     = Ok statements →
     Forall (λ element, isWrapped element = false) statements) →
  statementsToVerify this options
  = createVerifyData this (VObj (VerifyProofOptions.proof options))
      (VObj document) dataOptions.
Proof.
  cbv zeta. intros Hdefault Hnone Hplain.
  unfold disclosureFields in Hnone.
  apply Forall_cons in Hnone as [H1 Hnone].
  apply Forall_cons in Hnone as [H2 Hnone].
  apply Forall_cons in Hnone as [H3 Hnone].
  apply Forall_cons in Hnone as [H4 _].
  unfold statementsToVerify, createVerifyData. cbv zeta.
  destruct (createVerifyProofData this
              (VObj (VerifyProofOptions.proof options)) _) as [ps|e];
    [|done].
  rewrite !result_bind_Ok.
  assert (createVerifyProofData this
            (VObj (VerifyProofOptions.document options))
            {| DataOptions.documentLoader :=
                 VerifyProofOptions.documentLoader options;
               DataOptions.expansionMap :=
                 VerifyProofOptions.expansionMap options;
               DataOptions.compactProof := VUndefined |}
          = createVerifyDocumentData this
              (VObj (VerifyProofOptions.document options))
              {| DataOptions.documentLoader :=
                   VerifyProofOptions.documentLoader options;
                 DataOptions.expansionMap :=
                   VerifyProofOptions.expansionMap options;
                 DataOptions.compactProof := VUndefined |}) as ->.
  { unfold createVerifyProofData, createVerifyDocumentData, canonizeProof,
      canonize. simpl.
    rewrite (delete_id _ _ H1), (delete_id _ _ H2), (delete_id _ _ H3),
      (delete_id _ _ H4).
    by rewrite Hdefault. }
  destruct (createVerifyDocumentData this _ _) as [ds|e] eqn:Hds; [|done].
  rewrite !result_bind_Ok. do 2 f_equal.
  specialize (Hplain ds eq_refl). clear Hds.
  unfold transformedDocumentStatements.
  induction Hplain as [|s ds Hs _ IH]; [done |].
  simpl. rewrite IH. f_equal.
  unfold isWrapped in Hs. unfold unstabilize. by rewrite Hs.
Qed.

End StatementsMore.

(** ** More on verification *)

Section VerifyMore.
Context {jsonld_api : jsonld.api} {bbs_api : bbs.api}
        {Buffer_api : Buffer.api} {jsigs_api : jsigs.api}.

(** A verification method that [getVerificationMethod] returns is what the
    framing answered for a truthy reference; it is truthy itself and has no
    [revoked] property. *)
Theorem getVerificationMethod_returns (proof : obj)
    (documentLoader : DocumentLoader) (verificationMethod : value) :
  getVerificationMethod proof documentLoader = Ok verificationMethod →
  ∃ reference,
    verificationMethodReference proof = Ok reference
    ∧ truthy reference = true
    ∧ frameVerificationMethod reference documentLoader = Ok verificationMethod
    ∧ truthy verificationMethod = true
    ∧ get_property verificationMethod "revoked" = Ok VUndefined.
Proof.
  unfold getVerificationMethod.
  destruct (verificationMethodReference proof) as [reference|] eqn:Hr;
    [|done].
  rewrite result_bind_Ok.
  destruct (truthy reference) eqn:Ht; [|done]. simpl.
  destruct (frameVerificationMethod reference documentLoader)
    as [result|] eqn:Hf; [|done].
  rewrite result_bind_Ok.
  destruct (truthy result) eqn:Hres; [|done]. simpl.
  destruct (get_property result "revoked") as [revoked|] eqn:Hp; [|done].
  rewrite result_bind_Ok.
  destruct revoked; try done. simpl. intros [= <-].
  by exists reference.
Qed.

(** A verification method given as an embedded object stands for its [id]:
    the resolution is the one of the plain reference. *)
Theorem getVerificationMethod_embedded (proof embedded : obj)
    (documentLoader : DocumentLoader) :
  typeof_object (get embedded "id") = false →
  getVerificationMethod (<["verificationMethod" := VObj embedded]> proof)
    documentLoader
  = getVerificationMethod
      (<["verificationMethod" := get embedded "id"]> proof) documentLoader.
Proof.
  intros Hid. unfold getVerificationMethod, verificationMethodReference, get.
  rewrite !lookup_insert_eq. simpl.
  fold (get embedded "id"). by rewrite Hid.
Qed.

(** [null] is an object to [typeof]: a proof whose [verificationMethod] is
    [null] does not get the missing-reference error; reading the [id]
    throws a [TypeError], and [verifyProof] reports that as the cause once
    the statements were recomputed. *)
Theorem getVerificationMethod_null (this : Suite.t)
    (options : VerifyProofOptions.t) :
  VerifyProofOptions.proof options !! "verificationMethod" = Some VNull →
  ∃ message,
    getVerificationMethod (VerifyProofOptions.proof options)
      (VerifyProofOptions.documentLoader options)
    = Err (TypeError message)
    ∧ ∀ statements,
        statementsToVerify this options = Ok statements →
        verifyProof this options
        = Ok {| bbs.verified := false;
                bbs.error := Some (TypeError message) |}.
Proof.
  intros Hnull. eexists. split.
  - unfold getVerificationMethod, verificationMethodReference, get.
    rewrite Hnull. simpl. reflexivity.
  - intros statements Hs. apply verifyProof_caught.
    rewrite verifyProof_try_steps, Hs, result_bind_Ok.
    unfold getVerificationMethod, verificationMethodReference, get.
    by rewrite Hnull.
Qed.

(** With the statements recomputed, the method resolved and the purpose
    valid, [verifyProof] returns the primitive's answer as it is, also a
    rejection with the primitive's own error. *)
Theorem verifyProof_verdict (this : Suite.t)
    (options : VerifyProofOptions.t) (statements : list string)
    (verificationMethod : value) (validation : Purpose.Validation)
    (verdict : bbs.VerifyProofResult) :
  statementsToVerify this options = Ok statements →
  getVerificationMethod (VerifyProofOptions.proof options)
    (VerifyProofOptions.documentLoader options) = Ok verificationMethod →
  cryptographicCheck this options statements = Ok verdict →
  purposeCheck this options verificationMethod = Ok validation →
  Purpose.valid validation = true →
  verifyProof this options = Ok verdict.
Proof.
  intros Hs Hm Hc Hp Hv. apply verifyProof_returned.
  rewrite verifyProof_try_steps, Hs, result_bind_Ok, Hm, result_bind_Ok.
  by rewrite Hc, result_bind_Ok, Hp, result_bind_Ok, Hv.
Qed.

End VerifyMore.

(** ** The generated nonce *)

Section NonceMore.
Context {jsonld_api : jsonld.api} {bbs_api : bbs.api}
        {Buffer_api : Buffer.api} {jsigs_api : jsigs.api}
        {issuer_api : BbsBlsSignature2020.api}.

Lemma length_encode (bs : list byte) :
  String.length (Base64.encode bs) = (4 * ((List.length bs + 2) / 3))%nat.
Proof.
  induction bs as [|a|a b|a b c r IH] using Base64Facts.list_ind3;
    try done.
  cbn [Base64.encode String.length List.length]. rewrite IH.
  replace (S (S (S (List.length r))) + 2)%nat
    with ((List.length r + 2) + 1 * 3)%nat by lia.
  rewrite Nat.div_add by done. lia.
Qed.

(** The nonce [deriveProof] makes for want of one is a text of 68
    characters from which the 50 random bytes can be read back: no entropy
    is lost, and different random bytes give different nonces. *)
Theorem deriveProof_generated_nonce (this : Suite.t)
    (options : DeriveProofOptions.t) (g g' : rng) (derived : obj) :
  truthy (DeriveProofOptions.nonce options) = false →
  deriveProof this options g = (Ok derived, g') →
  ∃ text,
    get (derivedProof derived) "nonce" = VStr text
    ∧ String.length text = 68%nat
    ∧ Base64.decode text = (randomBytes 50 g).1
    ∧ ∀ h, Buffer.toString_base64 (randomBytes 50 h).1 = text →
           (randomBytes 50 h).1 = (randomBytes 50 g).1.
Proof.
  intros Hf Hd.
  apply deriveProof_Ok in Hd
    as (sg & ds & ps & rd & rs & nonce & op & _ & _ & _ & _ & Hn & _ & ->).
  destruct (derivedProof_derivedDocument this
              (DeriveProofOptions.proof options) rd
              (revealIndicies ps ds rs) (List.length (ps ++ ds)) nonce op)
    as (-> & _).
  rewrite resolveNonce_falsy in Hn by done.
  assert (nonce = VStr (Buffer.toString_base64 (randomBytes 50 g).1)) as ->
    by congruence.
  exists (Buffer.toString_base64 (randomBytes 50 g).1).
  split_and!; [done | | apply Base64Facts.decode_encode |].
  - unfold Buffer.toString_base64.
    by rewrite length_encode, length_randomBytes.
  - intros h Hh.
    rewrite <- (Base64Facts.decode_encode (randomBytes 50 h).1).
    unfold Buffer.toString_base64 in Hh. rewrite Hh.
    apply Base64Facts.decode_encode.
Qed.

End NonceMore.

(** ** The further properties in the concrete world *)

Section MoreExamples.
#[local] Existing Instances World.jsonld_api World.bbs_api
  World.Buffer_api World.jsigs_api World.issuer_api.

Ltac computed := vm_compute; reflexivity.
Ltac decided := apply (bool_decide_unpack _); vm_compute; exact I.

Lemma unstabilize_drops_last_witness :
  (JsString.startsWith "_:c14n1" "_:c14n" = true
   ∧ JsString.no_dollar "_:c14n1" = true
   ∧ JsString.no_space "_:c14n12" = true
   ∧ JsString.at_boundary " <http://schema.org/name> <did:example:Doe> ."
     = true)
  ∧ unstabilize Scenario.unclosed
    = "_:c14n1 <http://schema.org/name> <did:example:Doe> .".
Proof.
  split; [by split_and! |].
  exact (unstabilize_drops_last "_:c14n1"
           " <http://schema.org/name> <did:example:Doe> ." "2"%char
           eq_refl eq_refl eq_refl eq_refl).
Defined.

Lemma stabilize_injective_witness :
  (Forall (λ element, roundTripSafe element = true)
     [World.address; World.familyName]
   ∧ transformedInputDocumentStatements [World.address; World.familyName]
     = transformedInputDocumentStatements [World.address; World.familyName])
  ∧ [World.address; World.familyName] = [World.address; World.familyName].
Proof.
  assert (Forall (λ element, roundTripSafe element = true)
            [World.address; World.familyName]) as Hsafe by decided.
  split; [by split |].
  exact (stabilize_injective _ _ Hsafe Hsafe eq_refl).
Defined.

Lemma createVerifyData_statements_witness :
  let options :=
    {| DataOptions.documentLoader := World.loader false;
       DataOptions.expansionMap := None;
       DataOptions.compactProof := VUndefined |} in
  createVerifyDocumentData World.suite (VObj World.signedDocument) options
  = Ok World.documentStatements
  ∧ Forall (λ s, isStatement s = true) World.documentStatements.
Proof.
  cbv zeta.
  assert (createVerifyDocumentData World.suite (VObj World.signedDocument)
            {| DataOptions.documentLoader := World.loader false;
               DataOptions.expansionMap := None;
               DataOptions.compactProof := VUndefined |}
          = Ok World.documentStatements) as Hd by computed.
  split; [exact Hd |].
  exact (createVerifyData_statements _ _ _ _ (or_intror Hd)).
Defined.

Lemma dataset_lines_witness :
  Forall (λ s, isStatement s = true) World.documentStatements
  ∧ statementsOf
      (JsString.join JsString.LF
         (transformedInputDocumentStatements World.documentStatements))
    = Scenario.everything.
Proof.
  assert (Forall (λ s, isStatement s = true) World.documentStatements)
    as Hall by decided.
  split; [exact Hall |].
  exact (proj1 (dataset_lines _ Hall)).
Defined.

Lemma createVerifyProofData_ignores_disclosure_witness :
  let options :=
    {| DataOptions.documentLoader := World.loader false;
       DataOptions.expansionMap := None;
       DataOptions.compactProof := VUndefined |} in
  "nonce" ∈ disclosureFields
  ∧ createVerifyProofData World.suite
      (VObj (<["nonce" := VStr "another"]>
               (derivedProof Scenario.derivedGivenName))) options
    = createVerifyProofData World.suite
        (VObj (derivedProof Scenario.derivedGivenName)) options.
Proof.
  cbv zeta.
  assert ("nonce" ∈ disclosureFields) as Hin by decided.
  split; [exact Hin |].
  exact (proj1 (createVerifyProofData_ignores_disclosure World.suite
                  (derivedProof Scenario.derivedGivenName) "nonce"
                  (VStr "another") _ Hin)).
Defined.

Lemma statementsToVerify_createVerifyData_witness :
  let options := World.verifyOptions Scenario.derivedGivenName false true in
  let dataOptions :=
    {| DataOptions.documentLoader := World.loader false;
       DataOptions.expansionMap := None;
       DataOptions.compactProof := VUndefined |} in
  (Forall (λ name, VerifyProofOptions.document options !! name = None)
     disclosureFields
   ∧ createVerifyDocumentData World.suite
       (VObj (VerifyProofOptions.document options)) dataOptions
     = Ok [World.givenName]
   ∧ Forall (λ element, isWrapped element = false) [World.givenName])
  ∧ statementsToVerify World.suite options
    = Ok (World.derivedProofStatements ++ [World.givenName]).
Proof.
  cbv zeta.
  pose (options := World.verifyOptions Scenario.derivedGivenName false true).
  assert (Forall (λ name, VerifyProofOptions.document options !! name = None)
            disclosureFields) as Hnone
    by (repeat constructor).
  assert (createVerifyDocumentData World.suite
            (VObj (VerifyProofOptions.document options))
            {| DataOptions.documentLoader := World.loader false;
               DataOptions.expansionMap := None;
               DataOptions.compactProof := VUndefined |}
          = Ok [World.givenName]) as Hd by computed.
  assert (Forall (λ element, isWrapped element = false) [World.givenName])
    as Hplain by decided.
  assert (∀ input algorithm format documentLoader expansionMap useNative,
            jsonld.canonize input
              {| jsonld.algorithm := algorithm; jsonld.format := format;
                 jsonld.documentLoader := documentLoader;
                 jsonld.expansionMap := expansionMap;
                 jsonld.skipExpansion := None;
                 jsonld.useNative := useNative |}
            = jsonld.canonize input
                {| jsonld.algorithm := algorithm; jsonld.format := format;
                   jsonld.documentLoader := documentLoader;
                   jsonld.expansionMap := expansionMap;
                   jsonld.skipExpansion := Some false;
                   jsonld.useNative := useNative |}) as Hdefault
    by (intros; reflexivity).
  assert (∀ statements,
            createVerifyDocumentData World.suite
              (VObj (VerifyProofOptions.document options))
              {| DataOptions.documentLoader :=
                   VerifyProofOptions.documentLoader options;
                 DataOptions.expansionMap :=
                   VerifyProofOptions.expansionMap options;
                 DataOptions.compactProof := VUndefined |}
            = Ok statements →
            Forall (λ element, isWrapped element = false) statements)
    as Hall.
  { intros statements Hs.
    assert (Ok [World.givenName] = Ok statements) as Heq
      by (rewrite <- Hs; symmetry; exact Hd).
    injection Heq as <-. exact Hplain. }
  split; [by split_and! |].
  assert (createVerifyData World.suite
            (VObj (VerifyProofOptions.proof options))
            (VObj (VerifyProofOptions.document options))
            {| DataOptions.documentLoader :=
                 VerifyProofOptions.documentLoader options;
               DataOptions.expansionMap :=
                 VerifyProofOptions.expansionMap options;
               DataOptions.compactProof := VUndefined |}
          = Ok (World.derivedProofStatements ++ [World.givenName])) as Hcv
    by computed.
  exact (eq_trans
           (statementsToVerify_createVerifyData World.suite options
              Hdefault Hnone Hall)
           Hcv).
Defined.

Lemma getVerificationMethod_returns_witness :
  getVerificationMethod World.inputProof (World.loader false)
  = Ok (VObj {["id" := VStr World.methodId]})
  ∧ ∃ reference,
      verificationMethodReference World.inputProof = Ok reference
      ∧ truthy reference = true
      ∧ frameVerificationMethod reference (World.loader false)
        = Ok (VObj {["id" := VStr World.methodId]})
      ∧ truthy (VObj {["id" := VStr World.methodId]}) = true
      ∧ get_property (VObj {["id" := VStr World.methodId]}) "revoked"
        = Ok VUndefined.
Proof.
  assert (getVerificationMethod World.inputProof (World.loader false)
          = Ok (VObj {["id" := VStr World.methodId]})) as Hm by computed.
  split; [exact Hm |].
  exact (getVerificationMethod_returns _ _ _ Hm).
Defined.

Lemma getVerificationMethod_embedded_witness :
  typeof_object (get Scenario.embeddedMethod "id") = false
  ∧ getVerificationMethod
      (<["verificationMethod" := VObj Scenario.embeddedMethod]>
         World.inputProof)
      (World.loader false)
    = getVerificationMethod
        (<["verificationMethod" := get Scenario.embeddedMethod "id"]>
           World.inputProof)
        (World.loader false).
Proof.
  split; [reflexivity |].
  exact (getVerificationMethod_embedded World.inputProof
           Scenario.embeddedMethod (World.loader false) eq_refl).
Defined.

Lemma getVerificationMethod_null_witness :
  let options := Scenario.verifyOptionsWith Scenario.nullMethodProof in
  VerifyProofOptions.proof options !! "verificationMethod" = Some VNull
  ∧ ∃ message,
      getVerificationMethod (VerifyProofOptions.proof options)
        (VerifyProofOptions.documentLoader options)
      = Err (TypeError message).
Proof.
  cbv zeta.
  assert (VerifyProofOptions.proof
            (Scenario.verifyOptionsWith Scenario.nullMethodProof)
          !! "verificationMethod" = Some VNull) as Hnull by computed.
  split; [exact Hnull |].
  destruct (getVerificationMethod_null World.suite _ Hnull)
    as (message & Hm & _).
  exists message. exact Hm.
Defined.

Lemma verifyProof_verdict_witness :
  let options := Scenario.verifyOptionsWith Scenario.forgedProof in
  let statements := World.derivedProofStatements ++ [World.givenName] in
  let resolved := VObj {["id" := VStr World.methodId]} in
  let rejected := {| bbs.verified := false; bbs.error := None |} in
  (statementsToVerify World.suite options = Ok statements
   ∧ getVerificationMethod (VerifyProofOptions.proof options)
       (VerifyProofOptions.documentLoader options)
     = Ok resolved
   ∧ cryptographicCheck World.suite options statements = Ok rejected
   ∧ purposeCheck World.suite options resolved
     = Ok {| Purpose.valid := true;
             Purpose.error := Error "purpose is not valid" |})
  ∧ verifyProof World.suite options = Ok rejected.
Proof.
  cbv zeta.
  pose (options := Scenario.verifyOptionsWith Scenario.forgedProof).
  assert (statementsToVerify World.suite options
          = Ok (World.derivedProofStatements ++ [World.givenName])) as Hs
    by computed.
  assert (getVerificationMethod (VerifyProofOptions.proof options)
            (VerifyProofOptions.documentLoader options)
          = Ok (VObj {["id" := VStr World.methodId]})) as Hm by computed.
  assert (cryptographicCheck World.suite options
            (World.derivedProofStatements ++ [World.givenName])
          = Ok {| bbs.verified := false; bbs.error := None |}) as Hc
    by computed.
  assert (purposeCheck World.suite options
            (VObj {["id" := VStr World.methodId]})
          = Ok {| Purpose.valid := true;
                  Purpose.error := Error "purpose is not valid" |}) as Hp
    by reflexivity.
  split; [by split_and! |].
  exact (verifyProof_verdict World.suite options _ _ _ _ Hs Hm Hc Hp eq_refl).
Defined.

Lemma World_derive_givenName (nonce : value) :
  truthy nonce = true →
  deriveProof World.suite
    (World.deriveOptions false [World.givenName] nonce) World.zeros
  = (Ok (World.derived [World.givenName] [0; 1; 3] nonce), World.zeros).
Proof.
  intros Ht. rewrite deriveProof_steps. cbv zeta.
  rewrite (resolveNonce_truthy _ _ Ht). vm_compute. reflexivity.
Qed.

Lemma deriveProof_incompatible_type_witness :
  let options := Scenario.optionsWith Scenario.foreignProof (VStr "abc") in
  DeriveProofOptions.proof options !! "type"
  ≠ Some (VStr "BbsBlsSignature2020")
  ∧ deriveProof World.suite options World.zeros
    = (Err (TypeError incompatibleProofMessage), World.zeros).
Proof.
  cbv zeta.
  assert (DeriveProofOptions.proof
            (Scenario.optionsWith Scenario.foreignProof (VStr "abc"))
          !! "type" ≠ Some (VStr "BbsBlsSignature2020")) as Hne
    by (vm_compute; discriminate).
  split; [exact Hne |].
  exact (proj1 (deriveProof_incompatible_type World.suite _ World.zeros Hne)).
Defined.

Lemma deriveProof_returns_iff_witness :
  deriveProof World.suite
    (World.deriveOptions false [World.givenName] (VStr "abc")) World.zeros
  = (Ok Scenario.derivedGivenName, World.zeros).
Proof.
  apply deriveProof_returns_iff.
  exists (publicKeyBuffer World.keyPair), World.documentStatements,
    World.proofStatements, (World.reveal [World.givenName]),
    [World.givenName], (VStr "abc"), (publicKeyBuffer World.keyPair).
  split_and!; computed.
Defined.

Lemma deriveProof_entropy_witness :
  let options := World.deriveOptions false [World.givenName] (VStr EmptyString) in
  let derived := World.derived [World.givenName] [0; 1; 3] World.zeroNonce in
  deriveProof World.suite options World.zeros
  = (Ok derived, (randomBytes 50 World.zeros).2)
  ∧ entropy (randomBytes 50 World.zeros).2 = entropy World.zeros
  ∧ consumed (randomBytes 50 World.zeros).2 = 50%nat.
Proof.
  cbv zeta.
  assert (deriveProof World.suite
            (World.deriveOptions false [World.givenName] (VStr EmptyString))
            World.zeros
          = (Ok (World.derived [World.givenName] [0; 1; 3] World.zeroNonce),
             (randomBytes 50 World.zeros).2)) as Hd by computed.
  split; [exact Hd |].
  destruct (deriveProof_entropy World.suite _ _ _ _ Hd) as (He & _ & _).
  split; [exact He | reflexivity].
Defined.

Lemma deriveProof_aborts_witness :
  let options := Scenario.optionsWith Scenario.unsignedProof (VStr "abc") in
  (strict_eq_string (get (DeriveProofOptions.proof options) "type")
     "BbsBlsSignature2020" = true
   ∧ Buffer.from_base64 (get (DeriveProofOptions.proof options) "signature")
     = Err (TypeError "The first argument must be of type string"))
  ∧ deriveProof World.suite options World.zeros
    = (Err (TypeError "The first argument must be of type string"),
       World.zeros).
Proof.
  cbv zeta.
  pose (options := Scenario.optionsWith Scenario.unsignedProof (VStr "abc")).
  assert (strict_eq_string (get (DeriveProofOptions.proof options) "type")
            "BbsBlsSignature2020" = true) as Ht by computed.
  assert (Buffer.from_base64
            (get (DeriveProofOptions.proof options) "signature")
          = Err (TypeError "The first argument must be of type string"))
    as Hs by computed.
  split; [split; [reflexivity || assumption | assumption] |].
  exact (proj1 (deriveProof_aborts World.suite options World.zeros Ht) _ Hs).
Defined.

Lemma deriveProof_publishes_request_witness :
  let options := World.deriveOptions false [World.givenName] (VStr "abc") in
  deriveProof World.suite options World.zeros
  = (Ok Scenario.derivedGivenName, World.zeros)
  ∧ ∃ request outputProof,
      bbs.blsCreateProof request = Ok outputProof
      ∧ get (derivedProof Scenario.derivedGivenName) "nonce"
        = bbs.nonce request
      ∧ get (derivedProof Scenario.derivedGivenName) "revealStatements"
        = VArr (VNum <$> bbs.revealed request).
Proof.
  cbv zeta.
  pose proof (World_derive_givenName (VStr "abc") eq_refl) as Hd.
  split; [exact Hd |].
  destruct (deriveProof_publishes_request World.suite _ _ _ _ Hd)
    as (request & outputProof & Hc & _ & Hn & Hr & _).
  exists request, outputProof. split_and!; assumption.
Defined.

Lemma deriveProof_proof_fields_witness :
  let options := World.deriveOptions false [World.givenName] (VStr "abc") in
  deriveProof World.suite options World.zeros
  = (Ok Scenario.derivedGivenName, World.zeros)
  ∧ derivedProof Scenario.derivedGivenName !! "signature" = None
  ∧ derivedProof Scenario.derivedGivenName !! "type"
    = Some (VStr "BbsBlsSignatureProof2020")
  ∧ derivedProof Scenario.derivedGivenName !! "verificationMethod"
    = Some (VStr World.methodId).
Proof.
  cbv zeta.
  pose proof (World_derive_givenName (VStr "abc") eq_refl) as Hd.
  split; [exact Hd |].
  destruct (deriveProof_proof_fields World.suite _ _ _ _ Hd)
    as (Hs & Ht & Hother).
  split_and!; [exact Hs | exact Ht |].
  rewrite Hother; [reflexivity |].
  apply (bool_decide_unpack _). vm_compute. exact I.
Defined.

Lemma deriveProof_document_fields_witness :
  let options := World.deriveOptions false [World.givenName] (VStr "abc") in
  (deriveProof World.suite options World.zeros
   = (Ok Scenario.derivedGivenName, World.zeros)
   ∧ issuerStatements World.suite options
     = Ok (World.proofStatements, World.documentStatements)
   ∧ revealedSubgraph World.suite options World.documentStatements
     = Ok (World.reveal [World.givenName], [World.givenName]))
  ∧ delete "proof" Scenario.derivedGivenName
    = delete "proof" (spread (World.reveal [World.givenName])).
Proof.
  cbv zeta.
  pose proof (World_derive_givenName (VStr "abc") eq_refl) as Hd.
  pose proof (World_issuerStatements false [World.givenName] (VStr "abc"))
    as Hi.
  assert (revealedSubgraph World.suite
            (World.deriveOptions false [World.givenName] (VStr "abc"))
            World.documentStatements
          = Ok (World.reveal [World.givenName], [World.givenName])) as Hr
    by computed.
  split; [split_and!; assumption |].
  exact (proj1 (proj2 (deriveProof_document_fields World.suite _ _ _ _ _ _ _ _
                         Hd Hi Hr))).
Defined.

Lemma deriveProof_not_again_witness :
  let options := World.deriveOptions false [World.givenName] (VStr "abc") in
  let again :=
    Scenario.optionsWith (derivedProof Scenario.derivedGivenName)
      (VStr "abc") in
  deriveProof World.suite options World.zeros
  = (Ok Scenario.derivedGivenName, World.zeros)
  ∧ deriveProof World.suite again World.zeros
    = (Err (TypeError incompatibleProofMessage), World.zeros).
Proof.
  cbv zeta.
  pose proof (World_derive_givenName (VStr "abc") eq_refl) as Hd.
  split; [exact Hd |].
  exact (deriveProof_not_again (Some false) World.keyPair _
           (Scenario.optionsWith (derivedProof Scenario.derivedGivenName)
              (VStr "abc"))
           _ _ World.zeros _ Hd eq_refl).
Defined.

Lemma deriveProof_index_points_witness :
  let options := World.deriveOptions false [World.givenName] (VStr "abc") in
  (deriveProof World.suite options World.zeros
   = (Ok Scenario.derivedGivenName, World.zeros)
   ∧ [World.givenName] !! 0%nat = Some World.givenName
   ∧ World.givenName
     ∈ transformedInputDocumentStatements World.documentStatements)
  ∧ ∃ indices position statement,
      get (derivedProof Scenario.derivedGivenName) "revealStatements"
      = VArr (VNum <$> indices)
      ∧ indices !! (List.length World.proofStatements + 0)%nat
        = Some (Z.of_nat position)
      ∧ (World.proofStatements ++ World.documentStatements) !! position
        = Some statement
      ∧ (List.length World.proofStatements ≤ position)%nat
      ∧ stabilize statement = World.givenName.
Proof.
  cbv zeta.
  pose proof (World_derive_givenName (VStr "abc") eq_refl) as Hd.
  pose proof (World_issuerStatements false [World.givenName] (VStr "abc"))
    as Hi.
  assert (revealedSubgraph World.suite
            (World.deriveOptions false [World.givenName] (VStr "abc"))
            World.documentStatements
          = Ok (World.reveal [World.givenName], [World.givenName])) as Hr
    by computed.
  assert (World.givenName
          ∈ transformedInputDocumentStatements World.documentStatements)
    as Hin by decided.
  split; [split_and!; [exact Hd | reflexivity | exact Hin] |].
  exact (deriveProof_index_points World.suite _ _ _ _ _ _ _ _ 0%nat _
           Hd Hi Hr eq_refl Hin).
Defined.

Lemma deriveProof_indices_aligned_witness :
  let options := World.deriveOptions false [World.givenName] (VStr "abc") in
  (deriveProof World.suite options World.zeros
   = (Ok Scenario.derivedGivenName, World.zeros)
   ∧ Forall (λ element, roundTripSafe element = true) World.documentStatements
   ∧ Forall (λ key,
               key ∈ transformedInputDocumentStatements
                       World.documentStatements)
       [World.givenName])
  ∧ ∃ indices,
      get (derivedProof Scenario.derivedGivenName) "revealStatements"
      = VArr (VNum <$> indices)
      ∧ (λ i, (World.proofStatements ++ World.documentStatements)
              !! Z.to_nat i) <$> indices
        = Some <$> (World.proofStatements
                    ++ transformedDocumentStatements [World.givenName])
      ∧ Forall (λ i, 0 ≤ i
                     < Z.of_nat (List.length
                                   (World.proofStatements
                                    ++ World.documentStatements)))
          indices.
Proof.
  cbv zeta.
  pose proof (World_derive_givenName (VStr "abc") eq_refl) as Hd.
  pose proof (World_issuerStatements false [World.givenName] (VStr "abc"))
    as Hi.
  assert (revealedSubgraph World.suite
            (World.deriveOptions false [World.givenName] (VStr "abc"))
            World.documentStatements
          = Ok (World.reveal [World.givenName], [World.givenName])) as Hr
    by computed.
  assert (Forall (λ element, roundTripSafe element = true)
            World.documentStatements) as Hsafe by decided.
  assert (Forall (λ key,
                    key ∈ transformedInputDocumentStatements
                            World.documentStatements)
            [World.givenName]) as Hall by decided.
  split; [split_and!; assumption |].
  exact (deriveProof_indices_aligned World.suite _ _ _ _ _ _ _ _
           Hd Hi Hr Hsafe Hall).
Defined.

Lemma deriveProof_full_disclosure_witness :
  let options := World.deriveOptions false Scenario.everything (VStr "abc") in
  (deriveProof World.suite options World.zeros
   = (Ok Scenario.derivedEverything, World.zeros)
   ∧ revealedSubgraph World.suite options World.documentStatements
     = Ok (World.reveal Scenario.everything,
           transformedInputDocumentStatements World.documentStatements)
   ∧ NoDup World.documentStatements
   ∧ Forall (λ element, roundTripSafe element = true)
       World.documentStatements)
  ∧ ∃ total,
      get (derivedProof Scenario.derivedEverything) "totalStatements"
      = VNum (Z.of_nat total)
      ∧ get (derivedProof Scenario.derivedEverything) "revealStatements"
        = VArr (VNum <$> (Z.of_nat <$> seq 0 total)).
Proof.
  cbv zeta.
  assert (deriveProof World.suite
            (World.deriveOptions false Scenario.everything (VStr "abc"))
            World.zeros
          = (Ok Scenario.derivedEverything, World.zeros)) as Hd by computed.
  pose proof (World_issuerStatements false Scenario.everything (VStr "abc"))
    as Hi.
  assert (revealedSubgraph World.suite
            (World.deriveOptions false Scenario.everything (VStr "abc"))
            World.documentStatements
          = Ok (World.reveal Scenario.everything,
                transformedInputDocumentStatements World.documentStatements))
    as Hr by computed.
  assert (NoDup World.documentStatements) as Hnd by decided.
  assert (Forall (λ element, roundTripSafe element = true)
            World.documentStatements) as Hsafe by decided.
  split; [split_and!; assumption |].
  exact (deriveProof_full_disclosure World.suite _ _ _ _ _ _ _
           Hd Hi Hr Hnd Hsafe).
Defined.

Lemma deriveProof_generated_nonce_witness :
  let options := World.deriveOptions false [World.givenName] (VStr EmptyString) in
  let derived := World.derived [World.givenName] [0; 1; 3] World.zeroNonce in
  (truthy (DeriveProofOptions.nonce options) = false
   ∧ deriveProof World.suite options World.zeros
     = (Ok derived, (randomBytes 50 World.zeros).2))
  ∧ ∃ text,
      get (derivedProof derived) "nonce" = VStr text
      ∧ String.length text = 68%nat
      ∧ Base64.decode text = (randomBytes 50 World.zeros).1.
Proof.
  cbv zeta.
  assert (deriveProof World.suite
            (World.deriveOptions false [World.givenName] (VStr EmptyString))
            World.zeros
          = (Ok (World.derived [World.givenName] [0; 1; 3] World.zeroNonce),
             (randomBytes 50 World.zeros).2)) as Hd by computed.
  split; [split; [reflexivity || assumption | assumption] |].
  destruct (deriveProof_generated_nonce World.suite
              (World.deriveOptions false [World.givenName] (VStr EmptyString))
              _ _ _ eq_refl Hd)
    as (text & Hn & Hl & Hdec & _).
  exists text. split_and!; assumption.
Defined.

End MoreExamples.
